(** * LINE content pipeline: scraper, prompt builder, variant generator

    A shallow embedding of [backend/scraper.py], [backend/web_search.py]
    and [backend/content_generator.py], with the properties of the
    content-generation pipeline proved over it.

    Python [str] values are sequences of Unicode code points, so a text is
    a [list N]; slicing ([s[:1500]]), [len] and concatenation are the list
    operations.  Literals of the source are written as UTF-8 string
    literals and decoded by [lit]. *)

From Stdlib Require Import NArith ZArith Floats Uint63.
From stdpp Require Import base list strings gmap.

Local Open Scope N_scope.
Local Open Scope list_scope.

(** ** Texts *)

Definition str := list N.

(** UTF-8 decoding of a source literal: [need] continuation bytes are still
    expected and [acc] holds the bits read so far. *)
Fixpoint utf8_go (s : string) (need : nat) (acc : N) : str :=
  match s with
  | EmptyString => []
  | String a s' =>
      let b := Ascii.N_of_ascii a in
      match need with
      | O =>
          if b <? 128 then b :: utf8_go s' 0 0
          else if b <? 224 then utf8_go s' 1 (b - 192)
          else if b <? 240 then utf8_go s' 2 (b - 224)
          else utf8_go s' 3 (b - 240)
      | S O => (acc * 64 + (b - 128)) :: utf8_go s' 0 0
      | S n => utf8_go s' n (acc * 64 + (b - 128))
      end
  end.

Definition lit (s : string) : str := utf8_go s 0 0.

(** The escape [\n] of the source literals. *)
Definition nl : str := [10].

(** Lines of a multi-line literal, joined by [\n]. *)
Fixpoint lines (ls : list string) : str :=
  match ls with
  | [] => []
  | [l] => lit l
  | l :: ls' => lit l ++ nl ++ lines ls'
  end.

(** Truthiness of a [str] and of an [Optional[str]]. *)
Definition truthy {A} (l : list A) : bool :=
  match l with [] => false | _ => true end.

Definition truthy_opt {A} (o : option (list A)) : bool :=
  match o with Some l => truthy l | None => false end.

(** [str(n)] for a non-negative [int]. *)
Fixpoint uint_codes (d : Decimal.uint) : str :=
  match d with
  | Decimal.Nil => []
  | Decimal.D0 d => 48 :: uint_codes d
  | Decimal.D1 d => 49 :: uint_codes d
  | Decimal.D2 d => 50 :: uint_codes d
  | Decimal.D3 d => 51 :: uint_codes d
  | Decimal.D4 d => 52 :: uint_codes d
  | Decimal.D5 d => 53 :: uint_codes d
  | Decimal.D6 d => 54 :: uint_codes d
  | Decimal.D7 d => 55 :: uint_codes d
  | Decimal.D8 d => 56 :: uint_codes d
  | Decimal.D9 d => 57 :: uint_codes d
  end.

Definition py_str_int (n : nat) : str := uint_codes (Nat.to_uint n).

(** [enumerate(l)]: the elements paired with their index, from 0. *)
Fixpoint enumerate_from {A} (i : nat) (l : list A) : list (nat * A) :=
  match l with
  | [] => []
  | x :: l' => (i, x) :: enumerate_from (S i) l'
  end.

Definition enumerate {A} (l : list A) : list (nat * A) := enumerate_from 0 l.

(** [needle in hay] for two [str]: [needle] occurs as a contiguous run. *)
Fixpoint starts_with (needle hay : str) : bool :=
  match needle, hay with
  | [], _ => true
  | _ :: _, [] => false
  | a :: n', b :: h' => (a =? b) && starts_with n' h'
  end.

Fixpoint contains (needle hay : str) : bool :=
  starts_with needle hay ||
  match hay with
  | [] => false
  | _ :: h' => contains needle h'
  end.

(** [c in s] for a single character. *)
Definition has_char (c : N) (s : str) : bool := existsb (N.eqb c) s.

(** ** Models ([backend/models.py]) *)

(** [LineContentRequest]; the two [HttpUrl] fields are held by their text,
    which is what the f-strings of the generator print. *)
Record LineContentRequest := {
  company_name : str;
  company_url : str;
  blog_url : str;
  redirect_text : str;
  bracket_type : str;
  honorific : str;
  child_honorific : str;
  fixed_format : option str;
  add_emotional_intro : bool;
  writing_style : str;
  line_break_style : str;
  content_length : str;
  date_format : str;
  bullet_point : str;
  emoji_types : str;
  emoji_count : str;
  greeting_text : str;
  reference_template : option str
}.

Record ScrapedContent := {
  title : str;
  content : str;
  images : list str
}.

Record GeneratedContent := {
  gc_content : str;
  gc_markdown : str
}.

(** ** [ContentGenerator._format_as_markdown] *)

(** One iteration of the image loop:
    [markdown += f"\n\n![記事画像 {i+1}]({image_url})"]. *)
Definition append_image (markdown : str) (p : nat * str) : str :=
  markdown ++ (nl ++ nl ++ lit "![記事画像 " ++ py_str_int (p.1 + 1)
               ++ lit "](" ++ p.2 ++ lit ")").

Definition _format_as_markdown
    (content : str) (selected_images : list str) (blog_url : option str) : str :=
  let markdown := content in
  let markdown := fold_left append_image (enumerate selected_images) markdown in
  if truthy_opt blog_url
  then markdown ++ (nl ++ nl ++ lit "[詳細を見る](" ++ default [] blog_url ++ lit ")")
  else markdown.

(** *** The formatting as the specification words it *)

(** The image reference numbered [k] for the address [u]. *)
Definition image_ref (k : nat) (u : str) : str :=
  nl ++ nl ++ lit "![記事画像 " ++ py_str_int k ++ lit "](" ++ u ++ lit ")".

(** The trailing link to the source article. *)
Definition source_link (u : str) : str :=
  nl ++ nl ++ lit "[詳細を見る](" ++ u ++ lit ")".

(** One reference per image, numbered from 1 in the order of the list. *)
Definition image_refs (selected_images : list str) : str :=
  concat (imap (λ i u, image_ref (S i) u) selected_images).

(** The link when a source address is present, nothing otherwise. *)
Definition source_link_opt (blog_url : option str) : str :=
  match blog_url with
  | Some (c :: u) => source_link (c :: u)
  | _ => []
  end.

Definition markdown_spec
    (content : str) (selected_images : list str) (blog_url : option str) : str :=
  content ++ image_refs selected_images ++ source_link_opt blog_url.

(** ** Search results ([backend/web_search.py]) *)

Record Citation := {
  cite_url : str;
  cite_title : str
}.

(** The dict returned by [search_related_info], key by key: a field is
    [None] when the key is absent from the dict. *)
Record SearchResults := {
  sr_search_results : option (list str);
  sr_error : option str;
  sr_summary : option str;
  sr_citations : option (list Citation)
}.

(** The dict returned by [enhance_content_with_web_search]; with no key it
    is the empty dict [{}] that [generate_line_content] starts from. *)
Record WebSearchInfo := {
  ws_topic : option str;
  ws_search_results : option SearchResults
}.

Definition empty_dict : WebSearchInfo :=
  {| ws_topic := None; ws_search_results := None |}.

(** Truthiness of the dict: it has at least one key. *)
Definition dict_truthy (d : WebSearchInfo) : bool :=
  bool_decide (is_Some (ws_topic d)) || bool_decide (is_Some (ws_search_results d)).

(** ** [ContentGenerator._build_prompt] *)

Definition image_instruction (selected_images : list str) : str :=
  if truthy selected_images then
    if bool_decide (length selected_images = 1%nat) then
      lit "記事には1枚の添付画像があります。画像について言及せず、テキストのみを生成してください。"
    else
      lit "記事には" ++ py_str_int (length selected_images)
      ++ lit "枚の添付画像があります。画像について言及せず、テキストのみを生成してください。"
  else [].

Definition template_instruction (request : LineContentRequest) : str :=
  if truthy_opt (reference_template request) then
    lines ["";
           "            以下のテンプレートを参考にして、全体的な文調とフォーマットを模倣してください：";
           "            ";
           "            "]
    ++ default [] (reference_template request)
    ++ lines ["";
           "            "]
  else [].

(** [web_search_info and 'search_results' in web_search_info and
    'summary' in web_search_info['search_results']]: the test is on the
    presence of the keys. *)
Definition web_search_section (web_search_info : option WebSearchInfo) : str :=
  match web_search_info with
  | Some d =>
      if dict_truthy d then
        match ws_search_results d with
        | Some sr =>
            match sr_summary sr with
            | Some summary =>
                lines ["";
                       "            # Web検索で収集した追加情報";
                       "            ";
                       "            "]
                ++ summary
                ++ lines ["";
                       "            ";
                       "            この情報を適切に利用して、記事の内容を充実させてください。ただし、過度に専門的になりすぎず、LINE配信の読みやすさを保ってください。";
                       "            "]
            | None => []
            end
        | None => []
        end
      else []
  | None => []
  end.

(** The value printed after [- 画像: ] in the requirements list. *)
Definition image_field (selected_images : list str) : str :=
  if truthy selected_images
  then lit "あり (" ++ py_str_int (length selected_images) ++ lit "枚)"
  else lit "なし".

(** The pieces of the f-string, in order: literal text and the printed
    expressions alternate. *)
Definition prompt_pieces
    (request : LineContentRequest) (scraped_content : ScrapedContent)
    (selected_images : list str) (web_search_info : option WebSearchInfo)
    : list str :=
  [
    lines ["";
           "        あなたは企業のLINE配信記事のプロの作成者です。元のブログ記事をLINE配信向けに最適化された記事に書き換える必要があります。";
           "        ";
           "        # 企業情報";
           "        - 企業名: "];
    company_name request;
    lines ["";
           "        - 企業URL: "];
    company_url request;
    lines ["";
           "        ";
           "        # 元のブログ記事";
           "        タイトル: "];
    title scraped_content;
    lines ["";
           "        ";
           "        コンテンツ:";
           "        "];
    take 1500 (content scraped_content);
    lines ["  # 長すぎる場合は制限";
           "        ";
           "        "];
    web_search_section web_search_info;
    lines ["";
           "        ";
           "        # LINE配信記事の要件";
           "        - 記事の長さ: "];
    content_length request;
    lines ["";
           "        - 文体: "];
    writing_style request;
    lines ["（丁寧/カジュアル）";
           "        - 改行位置: "];
    line_break_style request;
    lines ["";
           "        - かっこの種類: "];
    bracket_type request;
    lines ["";
           "        - 敬称: "];
    honorific request;
    lines ["";
           "        - 子どもの敬称: "];
    child_honorific request;
    lines ["";
           "        - 感情を誘発させる文頭: "];
    (if add_emotional_intro request then lit "必要" else lit "不要");
    lines ["";
           "        - 絵文字の種類: "];
    emoji_types request;
    lines ["";
           "        - 絵文字の量: "];
    emoji_count request;
    lines ["個程度/配信";
           "        - 箇条書き記号: "];
    bullet_point request;
    lines ["";
           "        - 日時フォーマット: "];
    date_format request;
    lines ["";
           "        - 挨拶文: "];
    greeting_text request;
    lines ["";
           "        - 元記事への誘導: "];
    redirect_text request;
    lines ["";
           "        - 画像: "];
    image_field selected_images;
    lines ["";
           "        ";
           "        "];
    image_instruction selected_images;
    lines ["";
           "        ";
           "        "];
    template_instruction request;
    lines ["";
           "        ";
           "        # 指示";
           "        1. オリジナルのブログコンテンツの主要なメッセージを保持しながら、LINEのカジュアルな配信向けに最適化してください。";
           "        2. 指定された絵文字を適切な場所に使い、親しみやすさを演出してください。";
           "        3. 記事の最後には必ず元の記事へのリンク誘導文を入れてください。";
           "        4. 顧客目線で、読者の興味を引く内容に仕上げてください。";
           "        5. 文字数は指定された長さにしてください。";
           "        6. 必要に応じて箇条書きを使って見やすくしてください。";
           "        7. Web検索から得た追加情報がある場合は、それも活用して記事の価値を高めてください。ただし、情報源の詳細なURLなどは含めないでください。";
           "        ";
           "        最終的な出力は、LINEで配信するテキストのみを含めてください。マークダウン形式は必要ありません。";
           "        "]
  ].

Definition _build_prompt
    (request : LineContentRequest) (scraped_content : ScrapedContent)
    (selected_images : list str) (web_search_info : option WebSearchInfo) : str :=
  concat (prompt_pieces request scraped_content selected_images web_search_info).

(** ** Documents ([BeautifulSoup]) *)

(** A parsed document is a tree of tags and text.  A tag carries its name,
    its [class] tokens (the parser keeps [class] as a list) and its other
    attributes as a dict.  The [BeautifulSoup] object is the root tag. *)
Inductive node :=
  | NavigableString (s : str)
  | Tag (name : str) (classes : list str) (attrs : gmap string str)
        (contents : list node).

Definition contents_of (n : node) : list node :=
  match n with
  | NavigableString _ => []
  | Tag _ _ _ cs => cs
  end.

(** [tag.get(key)] *)
Definition get_attr (n : node) (key : string) : option str :=
  match n with
  | NavigableString _ => None
  | Tag _ _ a _ => a !! key
  end.

(** The descendants of a node in document order. *)
Fixpoint descendants (n : node) : list node :=
  match n with
  | NavigableString _ => []
  | Tag _ _ _ cs => List.flat_map (λ c, c :: descendants c) cs
  end.

(** [tag.get_text()] and [tag.text]: the text of the node, in document
    order. *)
Fixpoint get_text (n : node) : str :=
  match n with
  | NavigableString s => s
  | Tag _ _ _ cs => List.flat_map get_text cs
  end.

(** The three ways the scraper selects a tag: by name ([find('h1')],
    [find_all(['p', 'h2', 'h3'])]), by class ([find(class_=...)]) and by
    id ([find(id=...)]). *)
Definition by_name (names : list str) (n : node) : bool :=
  match n with
  | NavigableString _ => false
  | Tag name _ _ _ => bool_decide (name ∈ names)
  end.

Definition by_class (wanted : list str) (n : node) : bool :=
  match n with
  | NavigableString _ => false
  | Tag _ classes _ _ => bool_decide (Exists (λ c, c ∈ wanted) classes)
  end.

Definition by_id (wanted : str) (n : node) : bool :=
  match n with
  | NavigableString _ => false
  | Tag _ _ a _ => bool_decide (a !! "id"%string = Some wanted)
  end.

Definition find_all (p : node → bool) (n : node) : list node :=
  List.filter p (descendants n).

Definition find (p : node → bool) (n : node) : option node :=
  head (find_all p n).

(** A found tag is a reference into the document, so it is held by its
    position: the child indices from the root down to it. *)
Definition path := list nat.

Fixpoint find_path (p : node → bool) (n : node) : option path :=
  match n with
  | NavigableString _ => None
  | Tag _ _ _ cs =>
      (fix go (cs : list node) (i : nat) : option path :=
         match cs with
         | [] => None
         | c :: cs' =>
             if p c then Some [i]
             else match find_path p c with
                  | Some q => Some (i :: q)
                  | None => go cs' (S i)
                  end
         end) cs 0%nat
  end.

Fixpoint at_path (n : node) (q : path) : option node :=
  match q with
  | [] => Some n
  | i :: q' =>
      match contents_of n !! i with
      | Some c => at_path c q'
      | None => None
      end
  end.

(** The document with the node at [q] rewritten by [f]. *)
Fixpoint alter_path (f : node → node) (n : node) (q : path) {struct q} : node :=
  match q with
  | [] => f n
  | i :: q' =>
      match n with
      | NavigableString _ => n
      | Tag name classes a cs =>
          Tag name classes a (alter (λ c, alter_path f c q') i cs)
      end
  end.

(** [for tag in element.find_all(names): tag.decompose()]: every
    descendant with one of the names is removed with its subtree. *)
Fixpoint decompose_all (p : node → bool) (n : node) : node :=
  match n with
  | NavigableString _ => n
  | Tag name classes a cs =>
      Tag name classes a
        ((fix go (cs : list node) : list node :=
            match cs with
            | [] => []
            | c :: cs' => if p c then go cs' else decompose_all p c :: go cs'
            end) cs)
  end.

(** ** Text helpers of the scraper *)

(** The characters [str.strip()] removes. *)
Definition is_space (c : N) : bool :=
  ((9 <=? c) && (c <=? 13)) || ((28 <=? c) && (c <=? 32))
  || (c =? 133) || (c =? 160) || (c =? 5760)
  || ((8192 <=? c) && (c <=? 8202))
  || (c =? 8232) || (c =? 8233) || (c =? 8239) || (c =? 8287) || (c =? 12288).

Fixpoint lstrip (s : str) : str :=
  match s with
  | [] => []
  | c :: s' => if is_space c then lstrip s' else s
  end.

Definition strip (s : str) : str := reverse (lstrip (reverse (lstrip s))).

(** [sep.join(parts)] *)
Fixpoint join (sep : str) (parts : list str) : str :=
  match parts with
  | [] => []
  | [x] => x
  | x :: parts' => x ++ sep ++ join sep parts'
  end.

(** [list(dict.fromkeys(keys))]: a dict keeps its keys in insertion order,
    and setting a key that is already there leaves it in place. *)
Definition dict_set_key (d : list str) (k : str) : list str :=
  if bool_decide (k ∈ d) then d else d ++ [k].

Definition dict_fromkeys (keys : list str) : list str :=
  fold_left dict_set_key keys [].

(** ** [BlogScraper] ([backend/scraper.py]) *)

Definition SENTINEL_TITLE : str := lit "タイトル不明".

(** [tag and tag.text.strip()]: the stripped text of a found tag, when it
    is not empty. *)
Definition title_text (tag : option node) : option str :=
  match tag with
  | Some t => if truthy (strip (get_text t)) then Some (strip (get_text t)) else None
  | None => None
  end.

Definition TITLE_CLASSES : list str :=
  [lit "article-title"; lit "entry-title"; lit "post-title"].

Definition _extract_title (soup : node) : str :=
  let h1 := find (by_name [lit "h1"]) soup in
  match title_text h1 with
  | Some t => t
  | None =>
      let article_title := find (by_class TITLE_CLASSES) soup in
      match title_text article_title with
      | Some t => t
      | None =>
          let title_tag := find (by_name [lit "title"]) soup in
          match title_text title_tag with
          | Some t => t
          | None => SENTINEL_TITLE
          end
      end
  end.

(** The title as the specification words it: the candidates in their
    fixed order, each the stripped text of the first matching tag ([None]
    when the document has no such tag), and the first of them that is not
    empty. *)
Definition title_candidates (soup : node) : list (option str) :=
  [ (λ t, strip (get_text t)) <$> find (by_name [lit "h1"]) soup;
    (λ t, strip (get_text t)) <$> find (by_class TITLE_CLASSES) soup;
    (λ t, strip (get_text t)) <$> find (by_name [lit "title"]) soup ].

Fixpoint first_non_empty (candidates : list (option str)) : option str :=
  match candidates with
  | [] => None
  | Some (c :: t) :: _ => Some (c :: t)
  | _ :: candidates' => first_non_empty candidates'
  end.

Definition content_selectors : list str :=
  [lit "article"; lit ".article-content"; lit ".entry-content"; lit ".post-content";
   lit "#content"; lit ".content"; lit "main"; lit ".main"].

(** The test a selector stands for: a leading [.] selects by class, a
    leading [#] by id, anything else by tag name. *)
Definition selector_test (selector : str) : node → bool :=
  match selector with
  | 46 :: rest => by_class [rest]
  | 35 :: rest => by_id rest
  | _ => by_name [selector]
  end.

(** The selector loop: the first selector that finds a tag ends it.  The
    result is the position of the content element, [None] when no selector
    matches. *)
Fixpoint select_content (soup : node) (selectors : list str) : option path :=
  match selectors with
  | [] => None
  | selector :: rest =>
      match find_path (selector_test selector) soup with
      | Some q => Some q
      | None => select_content soup rest
      end
  end.

(** [if not content_element: content_element = soup] *)
Definition content_path (soup : node) : path :=
  default [] (select_content soup content_selectors).

Definition content_element (soup : node) : node :=
  default soup (at_path soup (content_path soup)).

(** The same loop by the tags [soup.find] returns, as the source writes it. *)
Fixpoint first_found (soup : node) (selectors : list str) : option node :=
  match selectors with
  | [] => None
  | selector :: rest =>
      match find (selector_test selector) soup with
      | Some e => Some e
      | None => first_found soup rest
      end
  end.

Definition UNWANTED : list str :=
  [lit "script"; lit "style"; lit "nav"; lit "header"; lit "footer"].

(** [_extract_content] returns the body text; it also removes the unwanted
    tags from the content element, which is part of the document, so the
    document it leaves behind is returned with the text. *)
Definition _extract_content (soup : node) : str * node :=
  let q := content_path soup in
  let soup' := alter_path (decompose_all (by_name UNWANTED)) soup q in
  let content_element := default soup' (at_path soup' q) in
  let paragraphs := find_all (by_name [lit "p"; lit "h2"; lit "h3"]) content_element in
  let paragraphs :=
    if truthy paragraphs then paragraphs
    else find_all (by_name [lit "div"; lit "span"; lit "section"]) content_element in
  let content :=
    join nl (List.map (λ p, strip (get_text p))
               (List.filter (λ p, truthy (strip (get_text p))) paragraphs)) in
  let content :=
    if truthy content then content else strip (get_text content_element) in
  (content, soup').

(** [src = img.get('src') or img.get('data-src')] *)
Definition img_src (img : node) : option str :=
  let src := get_attr img "src" in
  if truthy_opt src then src else get_attr img "data-src".

Section Scraper.

(** [urllib.parse.urljoin], a function of the Python library. *)
Variable urljoin : str → str → str.

(** [self.url] *)
Variable url : str.

(** The body of both image loops: the address of each [img] tag that has
    one, resolved against the page address. *)
Definition collect_images (element : node) : list str :=
  List.flat_map
    (λ img, let src := img_src img in
            if truthy_opt src then [urljoin url (default [] src)] else [])
    (find_all (by_name [lit "img"]) element).

Definition _extract_images (soup : node) : list str :=
  let images := collect_images (content_element soup) in
  let images := if truthy images then images else collect_images soup in
  dict_fromkeys images.

(** The part of [scrape] after the page is fetched and parsed: the three
    extractions run in this order on the one document. *)
Definition scrape_document (soup : node) : ScrapedContent :=
  let title := _extract_title soup in
  let '(content, soup) := _extract_content soup in
  let images := _extract_images soup in
  {| title := title; content := content; images := images |}.

End Scraper.

(** ** Effects: remote calls and exceptions *)

(** A raised exception: its class and the text [str(e)] prints. *)
Record exn := {
  exn_type : string;
  exn_str : str
}.

Inductive outcome (A : Type) :=
  | Ok (a : A)
  | Raised (e : exn).
Arguments Ok {A} a.
Arguments Raised {A} e.

(** A computation that talks to the outside world: it is run in a state of
    the world [W], leaves a new one, and returns or raises. *)
Definition io (W A : Type) : Type := W → W * outcome A.

Global Instance io_ret {W} : MRet (io W) := λ A a w, (w, Ok a).

Global Instance io_bind {W} : MBind (io W) := λ A B f m w,
  match m w with
  | (w', Ok a) => f a w'
  | (w', Raised e) => (w', Raised e)
  end.

Definition raise {W A} (e : exn) : io W A := λ w, (w, Raised e).

(** [try: body  except Exception as e: handler(e)] *)
Definition try_except {W A} (body : io W A) (handler : exn → io W A) : io W A :=
  λ w,
    match body w with
    | (w', Ok a) => (w', Ok a)
    | (w', Raised e) => handler e w'
    end.

(** A pure step that may raise. *)
Definition lift {W A} (r : outcome A) : io W A := λ w, (w, r).

(** ** The two remote backends *)

(** [client.chat.completions.create(...)]: the arguments of the call and
    the part of the response the generator reads. *)
Record ChatRequest := {
  chat_model : str;
  chat_system : str;
  chat_user : str;
  chat_max_tokens : nat;
  chat_temperature : float;
  chat_top_p : float;
  chat_frequency_penalty : float;
  chat_presence_penalty : float
}.

(** [response.choices], each choice by its [message.content]. *)
Record ChatResponse := {
  choices : list str
}.

(** [client.responses.create(...)] with the web search tool. *)
Record SearchRequest := {
  search_model : str;
  search_country : str;
  search_context_size : str;
  search_input : str;
  search_temperature : float;
  search_top_p : float
}.

(** An annotation of an output text; [ann_title] is [None] when the object
    has no [title] attribute. *)
Record Annotation := {
  ann_type : str;
  ann_url : str;
  ann_title : option str
}.

(** A content block of an output item; [oc_annotations] is [None] when the
    object has no [annotations] attribute. *)
Record OutputContent := {
  oc_type : str;
  oc_text : str;
  oc_annotations : option (list Annotation)
}.

(** An item of [response.output]; [item_content] is [None] for a message
    item that carries no iterable content. *)
Record OutputItem := {
  item_type : str;
  item_content : option (list OutputContent)
}.

Record SearchResponse := {
  output : list OutputItem
}.

(** ** [WebSearchClient] ([backend/web_search.py]) *)

Definition citations_of (annotations : list Annotation) : list Citation :=
  List.flat_map
    (λ annotation,
       if bool_decide (ann_type annotation = lit "url_citation")
       then [ {| cite_url := ann_url annotation;
                 cite_title := default [] (ann_title annotation) |} ]
       else [])
    annotations.

(** The body of the inner loop, for one content block. *)
Definition read_content (result : SearchResults) (c : OutputContent) : SearchResults :=
  if bool_decide (oc_type c = lit "output_text") then
    let result :=
      {| sr_search_results := sr_search_results result;
         sr_error := sr_error result;
         sr_summary := Some (oc_text c);
         sr_citations := sr_citations result |} in
    match oc_annotations c with
    | Some annotations =>
        {| sr_search_results := sr_search_results result;
           sr_error := sr_error result;
           sr_summary := sr_summary result;
           sr_citations := Some (citations_of annotations) |}
    | None => result
    end
  else result.

(** The outer loop over [response.output]. *)
Fixpoint read_output (result : SearchResults) (items : list OutputItem)
    : outcome SearchResults :=
  match items with
  | [] => Ok result
  | item :: items' =>
      if bool_decide (item_type item = lit "message") then
        match item_content item with
        | Some contents => read_output (fold_left read_content contents result) items'
        | None =>
            Raised {| exn_type := "TypeError";
                      exn_str := lit "'NoneType' object is not iterable" |}
        end
      else read_output result items'
  end.

(** [result = {"search_results": []}] *)
Definition initial_result : SearchResults :=
  {| sr_search_results := Some []; sr_error := None;
     sr_summary := None; sr_citations := None |}.

(** [{"error": str(e), "summary": "", "citations": []}] *)
Definition error_result (e : exn) : SearchResults :=
  {| sr_search_results := None; sr_error := Some (exn_str e);
     sr_summary := Some []; sr_citations := Some [] |}.

Definition search_request (query country : str) : SearchRequest :=
  {| search_model := lit "gpt-4o";
     search_country := country;
     search_context_size := lit "medium";
     search_input :=
       lit "以下のトピックに関する最新情報を詳しく調査してください。情報は日本語で要約し、情報源も含めてください。検索対象: "
       ++ query;
     search_temperature := 0.7;
     search_top_p := 0.95 |}.

(** [variations.append(...)] is preceded by these two reads. *)
Definition first_choice (response : ChatResponse) : outcome str :=
  match choices response !! 0%nat with
  | Some content => Ok content
  | None => Raised {| exn_type := "IndexError";
                      exn_str := lit "list index out of range" |}
  end.

(** [temperature=0.7 + (i * 0.1)], in the floating-point arithmetic of
    Python (binary64). *)
Definition variation_temperature (i : nat) : float :=
  (0.7 + PrimFloat.of_uint63 (Uint63.of_Z (Z.of_nat i)) * 0.1)%float.

Definition variation_request (prompt : str) (i : nat) : ChatRequest :=
  {| chat_model := lit "gpt-4o";
     chat_system := prompt;
     chat_user :=
       lit "LINE配信記事のバリエーション" ++ py_str_int (i + 1)
       ++ lit "を生成してください。";
     chat_max_tokens := 800;
     chat_temperature := variation_temperature i;
     chat_top_p := 0.95;
     chat_frequency_penalty := 0.0;
     chat_presence_penalty := 0.0 |}.

(** [raise Exception(f"OpenAI APIでのコンテンツ生成に失敗しました: {str(e)}")]:
    the one error of the variant generation. *)
Definition GENERATION_FAILED : str := lit "OpenAI APIでのコンテンツ生成に失敗しました: ".

Definition generation_error (e : exn) : exn :=
  {| exn_type := "Exception"; exn_str := GENERATION_FAILED ++ exn_str e |}.

Definition SCRAPE_FAILED : str := lit "記事のスクレイピングに失敗しました: ".

Section Pipeline.

Context {W : Type}.

(** The generative backend and the search backend. *)
Variable chat_create : ChatRequest → io W ChatResponse.
Variable responses_create : SearchRequest → io W SearchResponse.

(** *** [WebSearchClient.search_related_info] *)
Definition search_related_info (query country : str) : io W SearchResults :=
  try_except
    (response ← responses_create (search_request query country);
     lift (read_output initial_result (output response)))
    (λ e, mret (error_result e)).

(** *** [WebSearchClient.enhance_content_with_web_search] *)
Definition enhance_content_with_web_search
    (request : LineContentRequest) (topic : str) : io W WebSearchInfo :=
  let search_query := company_name request ++ lit " " ++ topic in
  search_results ← search_related_info search_query (lit "JP");
  mret {| ws_topic := Some topic; ws_search_results := Some search_results |}.

(** *** [ContentGenerator.generate_line_content] *)

(** The search step: [web_search_info] starts as [{}] and keeps that
    value when the search is off or raises. *)
Definition search_step
    (request : LineContentRequest) (scraped_content : ScrapedContent)
    (use_web_search : bool) : io W WebSearchInfo :=
  let web_search_info := empty_dict in
  if use_web_search then
    try_except
      (let topic := title scraped_content in
       enhance_content_with_web_search request topic)
      (λ e, mret web_search_info)
  else mret web_search_info.

(** The loop [for i in range(3)], on the indices still to run and the
    variations appended so far. *)
Fixpoint generate_variations
    (request : LineContentRequest) (selected_images : list str) (prompt : str)
    (indices : list nat) (variations : list GeneratedContent)
    : io W (list GeneratedContent) :=
  match indices with
  | [] => mret variations
  | i :: indices' =>
      response ← chat_create (variation_request prompt i);
      content ← lift (first_choice response);
      let markdown :=
        _format_as_markdown content selected_images (Some (blog_url request)) in
      generate_variations request selected_images prompt indices'
        (variations ++ [ {| gc_content := content; gc_markdown := markdown |} ])
  end.

(** The search query of a request and a topic:
    [f"{request.company_name} {topic}"]. *)
Definition query_of (request : LineContentRequest) (topic : str) : str :=
  company_name request ++ lit " " ++ topic.

(** The search backend fails in the world [w]: the call raises, or its
    response cannot be read. *)
Definition search_fails (query : str) (w w' : W) (e : exn) : Prop :=
  responses_create (search_request query (lit "JP")) w = (w', Raised e)
  ∨ ∃ response,
      responses_create (search_request query (lit "JP")) w = (w', Ok response)
      ∧ read_output initial_result (output response) = Raised e.

(** The variation made of one generated text. *)
Definition variation_of
    (request : LineContentRequest) (selected_images : list str) (content : str)
    : GeneratedContent :=
  {| gc_content := content;
     gc_markdown := _format_as_markdown content selected_images (Some (blog_url request)) |}.

(** The backend answers the calls of the given indices, one after the
    other from the world [w], each with a text. *)
Inductive calls_succeed (prompt : str) : list nat → list str → W → W → Prop :=
  | calls_done w : calls_succeed prompt [] [] w w
  | calls_next i indices content contents w w' w'' response :
      chat_create (variation_request prompt i) w = (w', Ok response) →
      first_choice response = Ok content →
      calls_succeed prompt indices contents w' w'' →
      calls_succeed prompt (i :: indices) (content :: contents) w w''.

(** The first call that fails, with the exception it raises: the call
    itself, or the read of a response without choices. *)
Inductive call_fails (prompt : str) : list nat → W → W → exn → Prop :=
  | fails_call i indices w w' e :
      chat_create (variation_request prompt i) w = (w', Raised e) →
      call_fails prompt (i :: indices) w w' e
  | fails_read i indices w w' response e :
      chat_create (variation_request prompt i) w = (w', Ok response) →
      first_choice response = Raised e →
      call_fails prompt (i :: indices) w w' e
  | fails_later i indices w w' w'' response content e :
      chat_create (variation_request prompt i) w = (w', Ok response) →
      first_choice response = Ok content →
      call_fails prompt indices w' w'' e →
      call_fails prompt (i :: indices) w w'' e.

Definition generate_line_content
    (request : LineContentRequest) (scraped_content : ScrapedContent)
    (selected_images : list str) (use_web_search : bool)
    : io W (list GeneratedContent) :=
  web_search_info ← search_step request scraped_content use_web_search;
  let prompt :=
    _build_prompt request scraped_content selected_images (Some web_search_info) in
  let variations := [] in
  try_except
    (generate_variations request selected_images prompt (seq 0 3) variations)
    (λ e, raise (generation_error e)).

End Pipeline.

(** ** Sample values *)

(** A request with the default of every optional field of
    [LineContentRequest]. *)
Definition default_request (company_name company_url blog_url : str)
    : LineContentRequest :=
  {| company_name := company_name;
     company_url := company_url;
     blog_url := blog_url;
     redirect_text := lit "詳しく知りたい方は、下のリンクor画像をタップ👇✨";
     bracket_type := lit "【】";
     honorific := lit "様";
     child_honorific := lit "お子様";
     fixed_format := None;
     add_emotional_intro := true;
     writing_style := lit "カジュアル";
     line_break_style := lit "読みやすさ重視";
     content_length := lit "200文字前後";
     date_format := lit "MM月DD日(ddd), HH:MM";
     bullet_point := lit "🟧";
     emoji_types := lit "🏡✨👇🎉😊💁‍♂️🎁🌱🌿";
     emoji_count := lit "4~5";
     greeting_text := lit "{name}さま　こんばんは！";
     reference_template := None |}.

Definition sample_request : LineContentRequest :=
  default_request (lit "Example Home") (lit "https://example.com/")
    (lit "https://example.com/post/1").

(** The page
    [<html><body><article><header><img src="/img/hero.jpg"></header>
    <p>Hello</p></article></body></html>]
    as the parser gives it. *)
Definition hero_page : node :=
  Tag (lit "[document]") [] ∅
    [Tag (lit "html") [] ∅
       [Tag (lit "body") [] ∅
          [Tag (lit "article") [] ∅
             [Tag (lit "header") [] ∅
                [Tag (lit "img") [] {[ "src"%string := lit "/img/hero.jpg" ]} []];
              Tag (lit "p") [] ∅ [NavigableString (lit "Hello")]]]]].

(** Two backends over a world without state: a search that times out, and
    a generator that answers every call, saying whether the prompt it was
    given carries the header of the enrichment section. *)
Definition search_timeout : exn :=
  {| exn_type := "APITimeoutError"; exn_str := lit "Request timed out." |}.

Definition failing_search : SearchRequest → io unit SearchResponse :=
  λ _, raise search_timeout.

Definition echo_chat : ChatRequest → io unit ChatResponse :=
  λ r, mret {| choices :=
                 [if contains (lit "# Web検索で収集した追加情報") (chat_system r)
                  then lit "header seen" else lit "no header"] |}.

Definition steady_chat : ChatRequest → io unit ChatResponse :=
  λ _, mret {| choices := [lit "Sale!"] |}.

Definition sample_article : ScrapedContent :=
  {| title := lit "Sale Event"; content := lit "Sale on Sunday"; images := [] |}.

(** ** What the properties speak of *)

(** The header line of the enrichment section. *)
Definition SEARCH_HEADER : str := lit "# Web検索で収集した追加情報".

(** The counter word after the number of images; it occurs in both forms
    of the image instruction and in the image field of a request with
    images. *)
Definition MAI : N := 26522.

(** Every text of the caller, of the page or of the search that the
    prompt embeds: the body by its first 1500 characters, and the empty
    text for a summary or a template that is absent. *)
Definition embedded_texts
    (request : LineContentRequest) (scraped_content : ScrapedContent)
    (web_search_info : option WebSearchInfo) : list str :=
  [company_name request; company_url request; title scraped_content;
   take 1500 (content scraped_content); content_length request;
   writing_style request;
   line_break_style request; bracket_type request; honorific request;
   child_honorific request; emoji_types request; emoji_count request;
   bullet_point request; date_format request; greeting_text request;
   redirect_text request; default [] (reference_template request);
   default []
     (d ← web_search_info; sr ← ws_search_results d; sr_summary sr)].

(** The scraped content with another body. *)
Definition with_content (scraped_content : ScrapedContent) (body : str)
    : ScrapedContent :=
  {| title := title scraped_content; content := body;
     images := images scraped_content |}.

(** ** Further notions: what the search reads *)

(** The content blocks of the message items of an output, in order, and
    the text blocks among them. *)
Definition message_contents (items : list OutputItem) : list OutputContent :=
  List.flat_map
    (λ item,
       if bool_decide (item_type item = lit "message")
       then default [] (item_content item) else [])
    items.

Definition is_text_block (c : OutputContent) : bool :=
  bool_decide (oc_type c = lit "output_text").

Definition text_blocks (items : list OutputItem) : list OutputContent :=
  List.filter is_text_block (message_contents items).

(** A message item whose content cannot be iterated. *)
Definition unreadable (item : OutputItem) : bool :=
  bool_decide (item_type item = lit "message")
  && bool_decide (item_content item = None).

(** ** Further notions: the calls a run makes *)

(** A remote call, as it is seen from outside. *)
Inductive event :=
  | SearchCall (r : SearchRequest)
  | ChatCall (r : ChatRequest).

(** A backend that also writes each call it receives to a log kept beside
    the world. *)
Definition logged {W R A} (tag : R → event) (call : R → io W A)
    : R → io (W * list event) A :=
  λ r wl,
    let '(w', o) := call r wl.1 in
    ((w', wl.2 ++ [tag r]), o).

(** A search backend whose response has no text block, and one that
    answers with a summary. *)
Definition silent_search : SearchRequest → io unit SearchResponse :=
  λ _, mret {| output :=
                 [ {| item_type := lit "web_search_call"; item_content := None |} ] |}.

Definition steady_search : SearchRequest → io unit SearchResponse :=
  λ _, mret {| output :=
                 [ {| item_type := lit "message";
                      item_content := Some
                        [ {| oc_type := lit "output_text";
                             oc_text := lit "Open on Sunday";
                             oc_annotations := None |} ] |} ] |}.

(** The request with other values for the fixed format and for the URL of
    the source article. *)
Definition with_fixed_format (request : LineContentRequest) (ff : option str)
    : LineContentRequest :=
  {| company_name := company_name request;
     company_url := company_url request;
     blog_url := blog_url request;
     redirect_text := redirect_text request;
     bracket_type := bracket_type request;
     honorific := honorific request;
     child_honorific := child_honorific request;
     fixed_format := ff;
     add_emotional_intro := add_emotional_intro request;
     writing_style := writing_style request;
     line_break_style := line_break_style request;
     content_length := content_length request;
     date_format := date_format request;
     bullet_point := bullet_point request;
     emoji_types := emoji_types request;
     emoji_count := emoji_count request;
     greeting_text := greeting_text request;
     reference_template := reference_template request |}.

(** The search call of a run. *)
Definition search_call (request : LineContentRequest)
    (scraped_content : ScrapedContent) : event :=
  SearchCall (search_request (query_of request (title scraped_content)) (lit "JP")).

(** ** Further notions: what the prompt prints *)

(** The texts of the request and of the article that the prompt prints,
    in the order of the template. *)
Definition printed_texts
    (request : LineContentRequest) (scraped_content : ScrapedContent) : list str :=
  [company_name request; company_url request; title scraped_content;
   take 1500 (content scraped_content); content_length request;
   writing_style request; line_break_style request; bracket_type request;
   honorific request; child_honorific request; emoji_types request;
   emoji_count request; bullet_point request; date_format request;
   greeting_text request; redirect_text request].

(** The request with another reference template. *)
Definition with_reference_template (request : LineContentRequest)
    (template : option str) : LineContentRequest :=
  {| company_name := company_name request;
     company_url := company_url request;
     blog_url := blog_url request;
     redirect_text := redirect_text request;
     bracket_type := bracket_type request;
     honorific := honorific request;
     child_honorific := child_honorific request;
     fixed_format := fixed_format request;
     add_emotional_intro := add_emotional_intro request;
     writing_style := writing_style request;
     line_break_style := line_break_style request;
     content_length := content_length request;
     date_format := date_format request;
     bullet_point := bullet_point request;
     emoji_types := emoji_types request;
     emoji_count := emoji_count request;
     greeting_text := greeting_text request;
     reference_template := template |}.

(** The first line of the template instruction. *)
Definition TEMPLATE_HEADER : str :=
  lit "以下のテンプレートを参考にして、全体的な文調とフォーマットを模倣してください：".

(** ** Further notions: the scraper *)

(** The keys with the later repeats of each of them removed. *)
Fixpoint dedup_first (keys : list str) : list str :=
  match keys with
  | [] => []
  | k :: keys' => k :: filter (λ y, y ≠ k) (dedup_first keys')
  end.

(** A text that neither starts nor ends with a character that [strip]
    removes. *)
Definition trimmed (s : str) : Prop :=
  (∀ c, head s = Some c → is_space c = false)
  ∧ (∀ c, last s = Some c → is_space c = false).

(** The content element as the body extraction leaves it. *)
Definition stripped_element (soup : node) : node :=
  decompose_all (by_name UNWANTED) (content_element soup).

(** The body text read off a stripped content element: the second half of
    [_extract_content]. *)
Definition body_text (content_element : node) : str :=
  let paragraphs := find_all (by_name [lit "p"; lit "h2"; lit "h3"]) content_element in
  let paragraphs :=
    if truthy paragraphs then paragraphs
    else find_all (by_name [lit "div"; lit "span"; lit "section"]) content_element in
  let content :=
    join nl (List.map (λ p, strip (get_text p))
               (List.filter (λ p, truthy (strip (get_text p))) paragraphs)) in
  if truthy content then content else strip (get_text content_element).

(** The search of [find_path] among the children of a tag, from the child
    of index [i] on. *)
Fixpoint find_in_children (p : node → bool) (cs : list node) (i : nat) : option path :=
  match cs with
  | [] => None
  | c :: cs' =>
      if p c then Some [i]
      else match find_path p c with
           | Some q => Some (i :: q)
           | None => find_in_children p cs' (S i)
           end
  end.

(** A test that looks at the name, the classes and the attributes of a tag
    only, as the three tests of the scraper do. *)
Definition shallow (t : node → bool) : Prop :=
  ∀ name classes a cs cs',
    t (Tag name classes a cs) = t (Tag name classes a cs').

(** ** The HTTP layer ([backend/app.py]) *)

(** [LineGenerateRequest]: the fields of [LineContentRequest], all held
    as the texts received, with the selected images and the search
    switch. *)
Module LineGenerateRequest.
Record t := {
  company_name : str;
  company_url : str;
  blog_url : str;
  redirect_text : str;
  bracket_type : str;
  honorific : str;
  child_honorific : str;
  fixed_format : option str;
  add_emotional_intro : bool;
  writing_style : str;
  line_break_style : str;
  content_length : str;
  date_format : str;
  bullet_point : str;
  emoji_types : str;
  emoji_count : str;
  greeting_text : str;
  reference_template : option str;
  selected_images : list str;
  use_web_search : bool
}.
End LineGenerateRequest.

(** [LineContentResponse] *)
Record LineContentResponse := {
  scraped_content : ScrapedContent;
  generated_options : list GeneratedContent
}.

(** What a handler ends with: the value it returns, or the [HTTPException]
    it raises. *)
Inductive http_result (A : Type) :=
  | Returned (a : A)
  | HTTPError (status_code : nat) (detail : str).
Arguments Returned {A} a.
Arguments HTTPError {A} status_code detail.

(** The values of the two [Literal] fields of [LineContentRequest]. *)
Definition WRITING_STYLES : list str := [lit "丁寧"; lit "カジュアル"].
Definition LINE_BREAK_STYLES : list str :=
  [lit "読みやすさ重視"; lit "短め"; lit "長め"].

Module App.
Section App.

Context {W : Type}.

(** The two backends of the pipeline; the page fetch ([requests.get]
    followed by [raise_for_status], giving the page text) with the parser
    and [urljoin] of the Python libraries; and with them:
    [issubclass c d], the class hierarchy of Python and of the libraries,
    by which an [except] clause selects; [http_url], the validation of an
    [HttpUrl] field, giving the text of the URL; [validation_error], the
    error raised for a request that does not validate; and
    [http_exception_str], the text [str] gives for an [HTTPException]. *)
Variable chat_create : ChatRequest → io W ChatResponse.
Variable responses_create : SearchRequest → io W SearchResponse.
Variable http_get : str → io W str.
Variable parse_html : str → node.
Variable urljoin : str → str → str.
Variable issubclass : string → string → bool.
Variable http_url : str → option str.
Variable validation_error : LineGenerateRequest.t → exn.
Variable http_exception_str : nat → str → str.

(** [raise HTTPException(status_code=..., detail=...)] inside a [try]. *)
Definition http_exception (status_code : nat) (detail : str) : exn :=
  {| exn_type := "HTTPException"; exn_str := http_exception_str status_code detail |}.

(** [BlogScraper(url).scrape()], the [except requests.RequestException]
    clause selecting by class. *)
Definition scrape (url : str) : io W ScrapedContent :=
  try_except
    (text ← http_get url;
     let soup := parse_html text in
     mret (scrape_document urljoin url soup))
    (λ e,
       if issubclass (exn_type e) "RequestException"
       then raise {| exn_type := "Exception";
                     exn_str := SCRAPE_FAILED ++ exn_str e |}
       else raise e).

(** The two [except] clauses that end both handlers. *)
Definition respond {A} (value_error_detail error_detail : str → str)
    (body : io W A) : W → W * http_result A :=
  λ w,
    match body w with
    | (w', Ok a) => (w', Returned a)
    | (w', Raised e) =>
        if issubclass (exn_type e) "ValueError"
        then (w', HTTPError 422 (value_error_detail (exn_str e)))
        else (w', HTTPError 500 (error_detail (exn_str e)))
    end.

(** [scrape_blog] *)
Definition scrape_blog (url : str) : W → W * http_result ScrapedContent :=
  respond
    (λ s, lit "無効なURL: " ++ s)
    (λ s, lit "ブログ記事のスクレイピングに失敗しました: " ++ s)
    (content ← scrape url;
     mret content).

(** [LineContentRequest(company_name=request.company_name, ...)]: the two
    URLs are validated, and the two [Literal] fields checked. *)
Definition line_content_request (request : LineGenerateRequest.t)
    : outcome LineContentRequest :=
  match http_url (LineGenerateRequest.company_url request),
        http_url (LineGenerateRequest.blog_url request) with
  | Some company_url, Some blog_url =>
      if bool_decide (LineGenerateRequest.writing_style request ∈ WRITING_STYLES)
         && bool_decide (LineGenerateRequest.line_break_style request
                         ∈ LINE_BREAK_STYLES)
      then
        Ok {| company_name := LineGenerateRequest.company_name request;
              company_url := company_url;
              blog_url := blog_url;
              redirect_text := LineGenerateRequest.redirect_text request;
              bracket_type := LineGenerateRequest.bracket_type request;
              honorific := LineGenerateRequest.honorific request;
              child_honorific := LineGenerateRequest.child_honorific request;
              fixed_format := LineGenerateRequest.fixed_format request;
              add_emotional_intro := LineGenerateRequest.add_emotional_intro request;
              writing_style := LineGenerateRequest.writing_style request;
              line_break_style := LineGenerateRequest.line_break_style request;
              content_length := LineGenerateRequest.content_length request;
              date_format := LineGenerateRequest.date_format request;
              bullet_point := LineGenerateRequest.bullet_point request;
              emoji_types := LineGenerateRequest.emoji_types request;
              emoji_count := LineGenerateRequest.emoji_count request;
              greeting_text := LineGenerateRequest.greeting_text request;
              reference_template := LineGenerateRequest.reference_template request |}
      else Raised (validation_error request)
  | _, _ => Raised (validation_error request)
  end.

(** [generate_line_content], the handler. *)
Definition generate_line_content (request : LineGenerateRequest.t)
    : W → W * http_result LineContentResponse :=
  respond
    (λ s, s)
    (λ s, lit "LINE配信コンテンツの生成に失敗しました: " ++ s)
    (let selected_images := LineGenerateRequest.selected_images request in
     let use_web_search := LineGenerateRequest.use_web_search request in
     scraped_content ←
       try_except
         (scrape (LineGenerateRequest.blog_url request))
         (λ e, raise (http_exception 500
                        (lit "記事のスクレイピングに失敗しました: " ++ exn_str e)));
     line_request ← lift (line_content_request request);
     generated_options ←
       generate_line_content chat_create responses_create line_request
         scraped_content selected_images use_web_search;
     mret {| scraped_content := scraped_content;
             generated_options := generated_options |}).

End App.
End App.

(** A class hierarchy with the classes the handlers meet. *)
Definition sample_issubclass (c d : string) : bool :=
  bool_decide (c = d)
  || bool_decide (d = "Exception"%string)
  || bool_decide ((c, d) ∈ [("ValidationError", "ValueError");
                            ("Timeout", "RequestException");
                            ("ConnectionError", "RequestException");
                            ("InvalidURL", "RequestException");
                            ("InvalidURL", "ValueError")]%string).

(** The text of an [HTTPException]: [f"{status_code}: {detail}"]. *)
Definition sample_http_exception_str (status_code : nat) (detail : str) : str :=
  py_str_int status_code ++ lit ": " ++ detail.

(** A site that serves [hero_page] at every address, and one that
    refuses every connection. *)
Definition page_get : str → io unit str :=
  λ _, mret (lit "<html><body><article><header><img src=/img/hero.jpg></header><p>Hello</p></article></body></html>").

Definition connection_refused : exn :=
  {| exn_type := "ConnectionError"; exn_str := lit "Connection refused" |}.

Definition refused_get : str → io unit str :=
  λ _, raise connection_refused.

Definition sample_parse_html : str → node := λ _, hero_page.

Definition sample_urljoin : str → str → str :=
  λ base src, lit "https://example.com" ++ src.

(** A validation of addresses that accepts the texts starting with
    [https://], and the error for a request that is refused. *)
Definition sample_http_url (v : str) : option str :=
  if starts_with (lit "https://") v then Some v else None.

Definition sample_validation_error (request : LineGenerateRequest.t) : exn :=
  {| exn_type := "ValidationError";
     exn_str := lit "1 validation error for LineContentRequest" |}.

(** A request with the default of every optional field of
    [LineGenerateRequest], and one whose writing style is not one of
    the two of [LineContentRequest]. *)
Definition sample_generate_request : LineGenerateRequest.t :=
  {| LineGenerateRequest.company_name := lit "Example Home";
     LineGenerateRequest.company_url := lit "https://example.com/";
     LineGenerateRequest.blog_url := lit "https://example.com/post/1";
     LineGenerateRequest.redirect_text := lit "詳しく知りたい方は、下のリンクor画像をタップ👇✨";
     LineGenerateRequest.bracket_type := lit "【】";
     LineGenerateRequest.honorific := lit "様";
     LineGenerateRequest.child_honorific := lit "お子様";
     LineGenerateRequest.fixed_format := None;
     LineGenerateRequest.add_emotional_intro := true;
     LineGenerateRequest.writing_style := lit "カジュアル";
     LineGenerateRequest.line_break_style := lit "読みやすさ重視";
     LineGenerateRequest.content_length := lit "200文字前後";
     LineGenerateRequest.date_format := lit "MM月DD日(ddd), HH:MM";
     LineGenerateRequest.bullet_point := lit "🟧";
     LineGenerateRequest.emoji_types := lit "🏡✨👇🎉😊💁‍♂️🎁🌱🌿";
     LineGenerateRequest.emoji_count := lit "4~5";
     LineGenerateRequest.greeting_text := lit "{name}さま　こんばんは！";
     LineGenerateRequest.reference_template := None;
     LineGenerateRequest.selected_images := [];
     LineGenerateRequest.use_web_search := true |}.

Definition with_writing_style (request : LineGenerateRequest.t) (style : str)
    : LineGenerateRequest.t :=
  {| LineGenerateRequest.company_name := LineGenerateRequest.company_name request;
     LineGenerateRequest.company_url := LineGenerateRequest.company_url request;
     LineGenerateRequest.blog_url := LineGenerateRequest.blog_url request;
     LineGenerateRequest.redirect_text := LineGenerateRequest.redirect_text request;
     LineGenerateRequest.bracket_type := LineGenerateRequest.bracket_type request;
     LineGenerateRequest.honorific := LineGenerateRequest.honorific request;
     LineGenerateRequest.child_honorific := LineGenerateRequest.child_honorific request;
     LineGenerateRequest.fixed_format := LineGenerateRequest.fixed_format request;
     LineGenerateRequest.add_emotional_intro :=
       LineGenerateRequest.add_emotional_intro request;
     LineGenerateRequest.writing_style := style;
     LineGenerateRequest.line_break_style := LineGenerateRequest.line_break_style request;
     LineGenerateRequest.content_length := LineGenerateRequest.content_length request;
     LineGenerateRequest.date_format := LineGenerateRequest.date_format request;
     LineGenerateRequest.bullet_point := LineGenerateRequest.bullet_point request;
     LineGenerateRequest.emoji_types := LineGenerateRequest.emoji_types request;
     LineGenerateRequest.emoji_count := LineGenerateRequest.emoji_count request;
     LineGenerateRequest.greeting_text := LineGenerateRequest.greeting_text request;
     LineGenerateRequest.reference_template :=
       LineGenerateRequest.reference_template request;
     LineGenerateRequest.selected_images := LineGenerateRequest.selected_images request;
     LineGenerateRequest.use_web_search := LineGenerateRequest.use_web_search request |}.

(** The prefixes of the details the handlers answer with. *)
Definition INVALID_URL : str := lit "無効なURL: ".
Definition SCRAPE_BLOG_FAILED : str := lit "ブログ記事のスクレイピングに失敗しました: ".
Definition LINE_CONTENT_FAILED : str := lit "LINE配信コンテンツの生成に失敗しました: ".

(** The status of what a handler ends with: 200 for a value returned. *)
Definition status_of {A} (r : http_result A) : nat :=
  match r with
  | Returned _ => 200
  | HTTPError status_code _ => status_code
  end.

(** ** Further notions: where a printed text can occur in the prompt *)

(** The characters with which the literal text of the templates begins
    and ends around a printed expression: the newline, the space, the
    opening bracket after the writing style and the counter after the
    number of emoji. *)
Definition BOUNDARY : str := nl ++ lit " （個".

Definition is_boundary (c : N) : bool := has_char c BOUNDARY.

(** A literal of a template that begins and ends with such a character
    and is without the counter word of the image instruction. *)
Definition guards (l : str) : bool :=
  match l with
  | c :: _ => is_boundary c
  | [] => false
  end
  && match last l with
     | Some c => is_boundary c
     | None => false
     end
  && negb (has_char MAI l).

(** The pieces of an f-string by their kind: the literals stand at the
    even places, the printed expressions at the odd ones. *)
Fixpoint evens {A} (l : list A) : list A :=
  match l with
  | a :: _ :: rest => a :: evens rest
  | l' => l'
  end.

Fixpoint odds {A} (l : list A) : list A :=
  match l with
  | _ :: b :: rest => b :: odds rest
  | _ => []
  end.

(** * Properties *)

(** The literals are only ever computed as a whole. *)
Opaque lit lines.

(** ** Formatting: proofs *)

Lemma append_image_ref (acc : str) (i : nat) (u : str) :
  append_image acc (i, u) = acc ++ image_ref (i + 1) u.
Proof. reflexivity. Qed.

Lemma fold_append_image_from (l : list str) (i : nat) (acc : str) :
  fold_left append_image (enumerate_from i l) acc
  = acc ++ concat (imap (λ j u, image_ref (S (i + j)) u) l).
Proof.
  revert i acc. induction l as [|u l IH]; intros i acc;
    cbn [enumerate_from fold_left imap concat].
  - by rewrite app_nil_r.
  - rewrite IH, append_image_ref, <- app_assoc.
    replace (i + 1)%nat with (S (i + 0)) by lia.
    do 3 f_equal. apply imap_ext. intros j x _. cbn [compose].
    by replace (S i + j)%nat with (i + S j)%nat by lia.
Qed.

Lemma format_images (content : str) (l : list str) :
  fold_left append_image (enumerate l) content = content ++ image_refs l.
Proof. unfold enumerate. by rewrite fold_append_image_from. Qed.

Lemma format_as_markdown_eq
    (content : str) (selected_images : list str) (source_url : option str) :
  _format_as_markdown content selected_images source_url
  = markdown_spec content selected_images source_url.
Proof.
  unfold _format_as_markdown, markdown_spec. rewrite format_images.
  destruct source_url as [[|c u]|];
    cbn [truthy_opt truthy source_link_opt from_option];
    rewrite ?app_nil_r, <- ?app_assoc; reflexivity.
Qed.

(** C3. For every raw text, image list and optional source address, the
    markdown field is the raw text, then one image reference per selected
    image numbered 1, 2, ... in the order of the list, then the trailing
    link to the source address exactly when an address is present (a
    non-empty text); the content field of the variation is the raw text
    itself. *)
Theorem format_as_markdown_spec
    (content : str) (selected_images : list str) (source_url : option str) :
  _format_as_markdown content selected_images source_url
  = content ++ image_refs selected_images ++ source_link_opt source_url
  ∧ length (imap (λ i u, image_ref (S i) u) selected_images)
    = length selected_images
  ∧ (∀ i u, selected_images !! i = Some u →
       imap (λ i u, image_ref (S i) u) selected_images !! i
       = Some (image_ref (i + 1) u))
  ∧ (∀ u, source_url = Some u → u ≠ [] →
       source_link_opt source_url = source_link u)
  ∧ (source_url = None → source_link_opt source_url = [])
  ∧ (∀ request,
       gc_content (variation_of request selected_images content) = content
       ∧ gc_markdown (variation_of request selected_images content)
         = _format_as_markdown content selected_images (Some (blog_url request))).
Proof.
  split_and!.
  - apply format_as_markdown_eq.
  - apply length_imap.
  - intros i u Hi. rewrite list_lookup_imap, Hi. cbn [fmap option_fmap option_map].
    by replace (i + 1)%nat with (S i) by lia.
  - intros u -> Hu. by destruct u.
  - by intros ->.
  - done.
Qed.

(** C9. The raw content is a prefix of the formatted markdown, and with no
    image and no source address the formatting changes nothing. *)
Theorem content_prefix_of_markdown
    (content : str) (selected_images : list str) (source_url : option str) :
  content `prefix_of` _format_as_markdown content selected_images source_url
  ∧ _format_as_markdown content [] None = content.
Proof.
  split; [|done].
  rewrite format_as_markdown_eq.
  by exists (image_refs selected_images ++ source_link_opt source_url).
Qed.

(** ** Texts: occurrence *)

Lemma starts_with_prefix (needle hay : str) :
  starts_with needle hay = true ↔ needle `prefix_of` hay.
Proof.
  revert hay. induction needle as [|a n IH]; intros [|b h]; cbn [starts_with].
  - split; [intros _; apply prefix_nil | done].
  - split; [intros _; apply prefix_nil | done].
  - split; [done | intros [k Hk]; discriminate].
  - rewrite andb_true_iff, N.eqb_eq, IH. split.
    + intros [-> Hp]. by apply prefix_cons.
    + intros [k Hk]. injection Hk as -> ->. split; [done | by exists k].
Qed.

Lemma contains_infix (needle hay : str) :
  contains needle hay = true ↔ ∃ a b, hay = a ++ needle ++ b.
Proof.
  induction hay as [|c h IH].
  - cbn [contains]. rewrite orb_false_r, starts_with_prefix. split.
    + intros [k Hk]. by exists [], k.
    + intros (a & b & Hab). symmetry in Hab.
      apply app_eq_nil in Hab as [-> Hab]. apply app_eq_nil in Hab as [-> ->].
      apply prefix_nil.
  - cbn [contains]. rewrite orb_true_iff, starts_with_prefix, IH. split.
    + intros [[k Hk] | (a & b & ->)].
      * by exists [], k.
      * by exists (c :: a), b.
    + intros ([|x a] & b & Hab).
      * left. by exists b.
      * right. injection Hab as -> ->. by exists a, b.
Qed.

Lemma contains_elem_of (needle hay : str) (c : N) :
  contains needle hay = true → c ∈ needle → c ∈ hay.
Proof.
  intros (a & b & ->)%contains_infix Hc. rewrite !elem_of_app. auto.
Qed.

Lemma not_contains (needle hay : str) (c : N) :
  c ∈ needle → c ∉ hay → contains needle hay = false.
Proof.
  intros Hn Hh. apply not_true_is_false. intros Hc.
  apply Hh. by apply (contains_elem_of needle).
Qed.

Lemma has_char_false (c : N) (s : str) : has_char c s = false → c ∉ s.
Proof.
  unfold has_char. intros H Hin. apply not_true_iff_false in H. apply H.
  apply existsb_exists. exists c. split; [by apply list_elem_of_In | apply N.eqb_refl].
Qed.

Lemma has_char_true (c : N) (s : str) : has_char c s = true → c ∈ s.
Proof.
  unfold has_char. intros (x & Hx & ->%N.eqb_eq)%existsb_exists.
  by apply list_elem_of_In.
Qed.

(** ** The prompt: body truncation *)

Lemma concat_middle {A} (ls : list (list A)) (i : nat) (x : list A) :
  ls !! i = Some x →
  concat ls = concat (take i ls) ++ x ++ concat (drop (S i) ls).
Proof.
  intros Hi. rewrite <- (take_drop_middle ls i x Hi) at 1.
  by rewrite concat_app.
Qed.

(** The prompt is the text before the body, the first 1500 characters of
    the body, and the text after it. *)
Lemma build_prompt_split
    (request : LineContentRequest) (scraped_content : ScrapedContent)
    (selected_images : list str) (web_search_info : option WebSearchInfo) :
  _build_prompt request scraped_content selected_images web_search_info
  = concat (take 7 (prompt_pieces request scraped_content selected_images web_search_info))
    ++ take 1500 (content scraped_content)
    ++ concat (drop 8 (prompt_pieces request scraped_content selected_images web_search_info)).
Proof.
  unfold _build_prompt. apply concat_middle.
  unfold prompt_pieces. cbn [lookup list_lookup]. reflexivity.
Qed.

(** C4. For an article body longer than 1500 characters the prompt is a
    text that does not depend on the body, then exactly the first 1500
    characters of the body, then a text that does not depend on the body:
    no character past position 1500 reaches the prompt, and two bodies
    with the same first 1500 characters give the same prompt.  The bound
    is the constant of the builder, which takes no parameter for it. *)
Theorem build_prompt_body_capped
    (request : LineContentRequest) (scraped_content : ScrapedContent)
    (selected_images : list str) (web_search_info : option WebSearchInfo) :
  (length (content scraped_content) > 1500)%nat →
  ∃ before after : str,
    (∀ body : str,
       _build_prompt request (with_content scraped_content body)
         selected_images web_search_info
       = before ++ take 1500 body ++ after)
    ∧ length (take 1500 (content scraped_content)) = 1500%nat
    ∧ take 1500 (content scraped_content) `prefix_of` content scraped_content
    ∧ (∀ body : str,
         take 1500 body = take 1500 (content scraped_content) →
         _build_prompt request (with_content scraped_content body)
           selected_images web_search_info
         = _build_prompt request scraped_content selected_images web_search_info).
Proof.
  intros Hlen.
  exists (concat (take 7 (prompt_pieces request scraped_content selected_images web_search_info))),
         (concat (drop 8 (prompt_pieces request scraped_content selected_images web_search_info))).
  split_and!.
  - intros body. by rewrite build_prompt_split.
  - rewrite length_take. lia.
  - apply prefix_take.
  - intros body Hbody. rewrite !build_prompt_split.
    cbn [with_content content]. by rewrite Hbody.
Qed.

Lemma build_prompt_body_capped_witness :
  ∃ before after : str,
    (∀ body : str,
       _build_prompt sample_request
         (with_content
            {| title := lit "Sale Event"; content := replicate 1600 65; images := [] |}
            body) [] None
       = before ++ take 1500 body ++ after)
    ∧ length (take 1500 (replicate 1600 (65 : N))) = 1500%nat
    ∧ take 1500 (replicate 1600 (65 : N)) `prefix_of` replicate 1600 65
    ∧ (∀ body : str,
         take 1500 body = take 1500 (replicate 1600 65) →
         _build_prompt sample_request
           (with_content
              {| title := lit "Sale Event"; content := replicate 1600 65; images := [] |}
              body) [] None
         = _build_prompt sample_request
             {| title := lit "Sale Event"; content := replicate 1600 65; images := [] |}
             [] None).
Proof.
  apply (build_prompt_body_capped sample_request
           {| title := lit "Sale Event"; content := replicate 1600 65; images := [] |}
           [] None).
  cbn [content]. rewrite length_replicate. lia.
Defined.

(** ** The prompt: where the sections sit *)

Lemma concat_drop_lookup {A} (ls : list (list A)) (i : nat) (x : list A) :
  ls !! i = Some x → concat (drop i ls) = x ++ concat (drop (S i) ls).
Proof. intros Hi. by rewrite (drop_S ls x i Hi). Qed.

Lemma concat_split_at {A} (n : nat) (ls : list (list A)) :
  concat ls = concat (take n ls) ++ concat (drop n ls).
Proof. by rewrite <- concat_app, take_drop. Qed.

(** The enrichment section sits between the body and the requirements. *)
Lemma build_prompt_search_section
    (request : LineContentRequest) (scraped_content : ScrapedContent)
    (selected_images : list str) (web_search_info : option WebSearchInfo) :
  _build_prompt request scraped_content selected_images web_search_info
  = concat (take 9 (prompt_pieces request scraped_content selected_images web_search_info))
    ++ web_search_section web_search_info
    ++ concat (drop 10 (prompt_pieces request scraped_content selected_images web_search_info)).
Proof.
  unfold _build_prompt. apply concat_middle.
  unfold prompt_pieces. cbn [lookup list_lookup]. reflexivity.
Qed.

(** The section is empty when the dict has no summary key. *)
Lemma web_search_section_absent (web_search_info : option WebSearchInfo) :
  (d ← web_search_info; sr ← ws_search_results d; sr_summary sr) = None →
  web_search_section web_search_info = [].
Proof.
  intros Hs. unfold web_search_section.
  destruct web_search_info as [d|]; [|reflexivity].
  destruct (dict_truthy d); [|reflexivity].
  cbn [mbind option_bind] in Hs.
  destruct (ws_search_results d) as [sr|]; [|reflexivity].
  cbn [mbind option_bind] in Hs. by rewrite Hs.
Qed.

Lemma search_section_head :
  lines [""; "            # Web検索で収集した追加情報"; "            "; "            "]
  = ((nl ++ lit "            ") ++ SEARCH_HEADER)
    ++ lines [""; "            "; "            "].
Proof. vm_compute. reflexivity. Qed.

(** The section printed for a summary, empty or not. *)
Lemma web_search_section_present (topic : option str) (sr : SearchResults) (summary : str) :
  sr_summary sr = Some summary →
  web_search_section (Some {| ws_topic := topic; ws_search_results := Some sr |})
  = (nl ++ lit "            ") ++ SEARCH_HEADER
    ++ lines [""; "            "; "            "] ++ summary
    ++ lines ["";
              "            ";
              "            この情報を適切に利用して、記事の内容を充実させてください。ただし、過度に専門的になりすぎず、LINE配信の読みやすさを保ってください。";
              "            "].
Proof.
  intros Hs. unfold web_search_section.
  replace (dict_truthy _) with true
    by (unfold dict_truthy; cbn [ws_topic ws_search_results];
        by rewrite (bool_decide_eq_true_2 (is_Some (Some sr))), orb_true_r).
  cbn [ws_search_results]. rewrite Hs, search_section_head, <- !app_assoc.
  reflexivity.
Qed.

(** The enrichment of a failed search carries the summary key with the
    empty text, and the builder tests the key, not the text: the section
    is printed with its header and nothing under it, so the prompt
    contains the header. *)
Lemma error_result_prompt_has_header
    (request : LineContentRequest) (scraped_content : ScrapedContent)
    (selected_images : list str) (topic : str) (e : exn) :
  let web_search_info :=
    Some {| ws_topic := Some topic; ws_search_results := Some (error_result e) |} in
  sr_summary (error_result e) = Some []
  ∧ web_search_section web_search_info
    = lines ["";
             "            # Web検索で収集した追加情報";
             "            ";
             "            ";
             "            ";
             "            この情報を適切に利用して、記事の内容を充実させてください。ただし、過度に専門的になりすぎず、LINE配信の読みやすさを保ってください。";
             "            "]
  ∧ contains SEARCH_HEADER
      (_build_prompt request scraped_content selected_images web_search_info)
    = true.
Proof.
  intros web_search_info. split_and!.
  - reflexivity.
  - unfold web_search_info.
    rewrite (web_search_section_present (Some topic) (error_result e) []) by done.
    vm_compute. reflexivity.
  - apply contains_infix. rewrite build_prompt_search_section.
    unfold web_search_info.
    rewrite (web_search_section_present (Some topic) (error_result e) []) by done.
    exists (concat (take 9 (prompt_pieces request scraped_content selected_images
                              web_search_info))
            ++ nl ++ lit "            "),
           (lines [""; "            "; "            "] ++ []
            ++ lines ["";
                      "            ";
                      "            この情報を適切に利用して、記事の内容を充実させてください。ただし、過度に専門的になりすぎず、LINE配信の読みやすさを保ってください。";
                      "            "]
            ++ concat (drop 10 (prompt_pieces request scraped_content selected_images
                                  web_search_info))).
    unfold web_search_info. rewrite <- !app_assoc. reflexivity.
Qed.

(** ** The scraper: title *)

Lemma title_text_candidate (tag : option node) :
  title_text tag = first_non_empty [(λ t, strip (get_text t)) <$> tag].
Proof.
  destruct tag as [t|]; cbn; [|done]. by destruct (strip (get_text t)).
Qed.

Lemma title_text_non_empty (tag : option node) (t : str) :
  title_text tag = Some t → t ≠ [].
Proof.
  destruct tag as [e|]; cbn [title_text]; [|done].
  destruct (strip (get_text e)) eqn:Hs; cbn [truthy]; [done|].
  by intros [= <-].
Qed.

Lemma first_non_empty_cons (c : option str) (cs : list (option str)) :
  first_non_empty (c :: cs)
  = match first_non_empty [c] with
    | Some t => Some t
    | None => first_non_empty cs
    end.
Proof. by destruct c as [[|x t]|]. Qed.

(** C5. The extracted title is the first candidate that is not empty, in
    the order: text of the first [h1], text of the first tag with one of
    the article-title classes, text of the [title] tag; with no such
    candidate it is the sentinel.  It is never the empty text. *)
Theorem extract_title_first_non_empty (soup : node) :
  _extract_title soup
  = default SENTINEL_TITLE (first_non_empty (title_candidates soup))
  ∧ _extract_title soup ≠ [].
Proof.
  unfold _extract_title, title_candidates. split.
  - rewrite first_non_empty_cons, <- title_text_candidate.
    destruct (title_text (find (by_name [lit "h1"]) soup)); [done|].
    rewrite first_non_empty_cons, <- title_text_candidate.
    destruct (title_text (find (by_class TITLE_CLASSES) soup)); [done|].
    rewrite <- title_text_candidate.
    by destruct (title_text (find (by_name [lit "title"]) soup)).
  - destruct (title_text (find (by_name [lit "h1"]) soup)) eqn:H1;
      [by apply title_text_non_empty in H1|].
    destruct (title_text (find (by_class TITLE_CLASSES) soup)) eqn:H2;
      [by apply title_text_non_empty in H2|].
    destruct (title_text (find (by_name [lit "title"]) soup)) eqn:H3;
      [by apply title_text_non_empty in H3|].
    vm_compute. discriminate.
Qed.

(** ** The scraper: found tags and their positions *)

Lemma node_forall_ind (P : node → Prop) :
  (∀ s, P (NavigableString s)) →
  (∀ name classes a cs, Forall P cs → P (Tag name classes a cs)) →
  ∀ n, P n.
Proof.
  intros Hs Ht. fix IH 1. intros [s|name classes a cs]; [apply Hs|apply Ht].
  induction cs as [|c cs IHcs]; constructor; [apply IH | apply IHcs].
Qed.

(** The position found by [find_path] holds the tag found by [find]: the
    first one in document order. *)
Lemma find_path_find (p : node → bool) (n : node) :
  match find_path p n with
  | Some q => ∃ e, at_path n q = Some e ∧ find p n = Some e
  | None => find p n = None
  end.
Proof.
  induction n as [s|name classes a cs IH] using node_forall_ind; [done|].
  unfold find, find_all. cbn [find_path descendants].
  enough (∀ pre,
    match
      (fix go (cs : list node) (i : nat) : option path :=
         match cs with
         | [] => None
         | c :: cs' =>
             if p c then Some [i]
             else match find_path p c with
                  | Some q => Some (i :: q)
                  | None => go cs' (S i)
                  end
         end) cs (length pre)
    with
    | Some q =>
        ∃ e, at_path (Tag name classes a (pre ++ cs)) q = Some e
             ∧ head (List.filter p (List.flat_map (λ c, c :: descendants c) cs)) = Some e
    | None => head (List.filter p (List.flat_map (λ c, c :: descendants c) cs)) = None
    end) as Hgo by apply (Hgo []).
  induction IH as [|c cs Hc _ IHcs]; intros pre; [done|].
  cbn [List.flat_map app List.filter].
  destruct (p c) eqn:Hpc.
  - exists c. split; [|done]. cbn [at_path contents_of].
    by rewrite list_lookup_middle.
  - rewrite List.filter_app. unfold find, find_all in Hc.
    destruct (find_path p c) as [q|].
    + destruct Hc as (e & Hq & He). exists e. split.
      * cbn [at_path contents_of]. by rewrite list_lookup_middle.
      * destruct (List.filter p (descendants c)); [done|]. by cbn in *.
    + specialize (IHcs (pre ++ [c])).
      rewrite length_app, Nat.add_1_r, <- app_assoc in IHcs. cbn [app] in IHcs.
      destruct (List.filter p (descendants c)); [|done]. cbn [app]. apply IHcs.
Qed.

(** The content element is the tag [soup.find] gives for the first selector
    that finds one, and the document itself when none does. *)
Lemma select_content_first_found (soup : node) (selectors : list str) :
  match select_content soup selectors with
  | Some q => ∃ e, at_path soup q = Some e ∧ first_found soup selectors = Some e
  | None => first_found soup selectors = None
  end.
Proof.
  induction selectors as [|selector rest IH]; cbn [select_content first_found]; [done|].
  pose proof (find_path_find (selector_test selector) soup) as Hfind.
  destruct (find_path (selector_test selector) soup) as [q|].
  - destruct Hfind as (e & Hq & ->). eauto.
  - by rewrite Hfind.
Qed.

Lemma content_element_first_found (soup : node) :
  content_element soup = default soup (first_found soup content_selectors).
Proof.
  unfold content_element, content_path.
  pose proof (select_content_first_found soup content_selectors) as Hsel.
  destruct (select_content soup content_selectors) as [q|].
  - destruct Hsel as (e & Hq & ->). cbn [from_option id]. by rewrite Hq.
  - by rewrite Hsel.
Qed.

(** Rewriting the tag at a position leaves it at that position. *)
Lemma at_path_alter_path (f : node → node) (n : node) (q : path) (e : node) :
  at_path n q = Some e → at_path (alter_path f n q) q = Some (f e).
Proof.
  revert n. induction q as [|i q IH]; intros n.
  - intros [= ->]. reflexivity.
  - destruct n as [s|name classes a cs]; simpl; [done|].
    destruct (cs !! i) as [c|] eqn:Hc; [|done]. intros He.
    rewrite list_lookup_alter_eq, Hc. simpl. by apply IH.
Qed.

(** The body extraction leaves the document with the unwanted tags of its
    content element removed, and nothing else changed. *)
Lemma extract_content_document (soup : node) :
  (_extract_content soup).2
  = alter_path (decompose_all (by_name UNWANTED)) soup (content_path soup).
Proof. reflexivity. Qed.

(** ** The scraper: images *)

Lemma dict_fromkeys_acc (keys d : list str) :
  NoDup d →
  NoDup (fold_left dict_set_key keys d)
  ∧ d `prefix_of` fold_left dict_set_key keys d
  ∧ ∀ k, k ∈ fold_left dict_set_key keys d ↔ k ∈ d ∨ k ∈ keys.
Proof.
  revert d. induction keys as [|k keys IH]; intros d Hd; cbn [fold_left].
  - split_and!; [done | done |]. intros k. rewrite elem_of_nil. tauto.
  - unfold dict_set_key at 2 4 6. case_bool_decide as Hk.
    + destruct (IH d Hd) as (Hnd & Hpre & Hin). split_and!; [done | done |].
      intros k'. rewrite Hin, elem_of_cons. split; [tauto|].
      intros [?|[->|?]]; auto.
    + destruct (IH (d ++ [k])) as (Hnd & Hpre & Hin).
      { apply NoDup_app. split_and!; [done | | apply NoDup_singleton].
        intros x Hx ->%list_elem_of_singleton. done. }
      split_and!; [done | |].
      * etrans; [|exact Hpre]. by apply prefix_app_r.
      * intros k'. rewrite Hin, elem_of_app, list_elem_of_singleton, elem_of_cons.
        tauto.
Qed.

(** [list(dict.fromkeys(keys))] has no duplicate and the same elements. *)
Lemma dict_fromkeys_NoDup (keys : list str) : NoDup (dict_fromkeys keys).
Proof. apply dict_fromkeys_acc, NoDup_nil_2. Qed.

Lemma elem_of_dict_fromkeys (keys : list str) (k : str) :
  k ∈ dict_fromkeys keys ↔ k ∈ keys.
Proof.
  destruct (dict_fromkeys_acc keys [] (NoDup_nil_2)) as (_ & _ & Hin).
  unfold dict_fromkeys. rewrite Hin, elem_of_nil. tauto.
Qed.

(** The keys keep the order in which they are first seen: reading more
    keys only adds at the end, and a key not seen before is added right
    after the keys read so far. *)
Lemma dict_fromkeys_app (keys more : list str) :
  dict_fromkeys keys `prefix_of` dict_fromkeys (keys ++ more).
Proof.
  unfold dict_fromkeys. rewrite fold_left_app.
  apply dict_fromkeys_acc, dict_fromkeys_NoDup.
Qed.

Lemma dict_fromkeys_first_seen (keys more : list str) (k : str) :
  k ∉ keys →
  (dict_fromkeys keys ++ [k]) `prefix_of` dict_fromkeys (keys ++ k :: more).
Proof.
  intros Hk. unfold dict_fromkeys. rewrite fold_left_app. cbn [fold_left].
  fold (dict_fromkeys keys).
  replace (dict_set_key (dict_fromkeys keys) k) with (dict_fromkeys keys ++ [k]).
  - apply dict_fromkeys_acc. apply NoDup_app.
    split_and!; [apply dict_fromkeys_NoDup | | apply NoDup_singleton].
    intros x Hx ->%list_elem_of_singleton. by rewrite elem_of_dict_fromkeys in Hx.
  - unfold dict_set_key. rewrite bool_decide_eq_false_2; [done|].
    by rewrite elem_of_dict_fromkeys.
Qed.

(** What [_extract_images] returns for the document it is given: the
    addresses of the [img] tags of the content element, or of the whole
    document when that gives none, each resolved against the page address,
    without duplicate and in first-seen order. *)
Lemma extract_images_spec (urljoin : str → str → str) (url : str) (soup : node) :
  let found :=
    if truthy (collect_images urljoin url (content_element soup))
    then collect_images urljoin url (content_element soup)
    else collect_images urljoin url soup in
  _extract_images urljoin url soup = dict_fromkeys found
  ∧ NoDup (_extract_images urljoin url soup)
  ∧ (∀ u, u ∈ _extract_images urljoin url soup ↔ u ∈ found)
  ∧ (∀ seen u more, found = seen ++ u :: more → u ∉ seen →
       (dict_fromkeys seen ++ [u]) `prefix_of` _extract_images urljoin url soup).
Proof.
  intros found. unfold _extract_images. fold found. split_and!.
  - done.
  - apply dict_fromkeys_NoDup.
  - intros u. apply elem_of_dict_fromkeys.
  - intros seen u more -> Hu. by apply dict_fromkeys_first_seen.
Qed.

(** C6, on the code.  [scrape] extracts the body before the images, and
    the body extraction removes the [header], [nav], [footer], [script]
    and [style] tags from the content element of the one document both
    work on.  The image in the header of the article is in the content
    container of the fetched page, and [_extract_images] returns it for
    that page; [scrape] returns no image. *)
Theorem scrape_misses_header_image (urljoin : str → str → str) (url : str) :
  _extract_images urljoin url hero_page = [urljoin url (lit "/img/hero.jpg")]
  ∧ (_extract_content hero_page).2
    = Tag (lit "[document]") [] ∅
        [Tag (lit "html") [] ∅
           [Tag (lit "body") [] ∅
              [Tag (lit "article") [] ∅
                 [Tag (lit "p") [] ∅ [NavigableString (lit "Hello")]]]]]
  ∧ images (scrape_document urljoin url hero_page) = [].
Proof. split_and!; vm_compute; reflexivity. Qed.

(** ** The pipeline *)

Section PipelineProperties.

Context {W : Type}.
Variable chat_create : ChatRequest → io W ChatResponse.
Variable responses_create : SearchRequest → io W SearchResponse.

Ltac run_io :=
  unfold try_except, lift, raise, mbind, io_bind, mret, io_ret in *.

(** *** The search never raises *)

(** What the search returns, by the answer of its backend. *)
Lemma search_related_info_run (query country : str) (w : W) :
  search_related_info responses_create query country w
  = match responses_create (search_request query country) w with
    | (w', Ok response) =>
        match read_output initial_result (output response) with
        | Ok result => (w', Ok result)
        | Raised e => (w', Ok (error_result e))
        end
    | (w', Raised e) => (w', Ok (error_result e))
    end.
Proof.
  unfold search_related_info. run_io.
  destruct (responses_create _ w) as [w' [response|e]]; [|done].
  by destruct (read_output _ _).
Qed.

Lemma search_related_info_total (query country : str) (w : W) :
  ∃ w' result, search_related_info responses_create query country w = (w', Ok result).
Proof.
  rewrite search_related_info_run.
  destruct (responses_create _ w) as [w' [response|e]]; [|by eauto].
  destruct (read_output _ _); eauto.
Qed.

Lemma search_step_run
    (request : LineContentRequest) (scraped_content : ScrapedContent) (w : W) :
  search_step responses_create request scraped_content true w
  = match search_related_info responses_create (query_of request (title scraped_content)) (lit "JP") w with
    | (w', Ok result) =>
        (w', Ok {| ws_topic := Some (title scraped_content);
                   ws_search_results := Some result |})
    | (w', Raised e) => (w', Ok empty_dict)
    end.
Proof.
  unfold search_step, enhance_content_with_web_search, query_of. run_io.
  by destruct (search_related_info _ _ _ w) as [w' [result|e]].
Qed.

Lemma search_step_total
    (request : LineContentRequest) (scraped_content : ScrapedContent)
    (use_web_search : bool) (w : W) :
  ∃ w' web_search_info,
    search_step responses_create request scraped_content use_web_search w = (w', Ok web_search_info).
Proof.
  destruct use_web_search.
  - rewrite search_step_run.
    destruct (search_related_info_total
                (query_of request (title scraped_content)) (lit "JP") w)
      as (w' & result & ->). eauto.
  - unfold search_step. run_io. eauto.
Qed.

Lemma search_step_failure
    (request : LineContentRequest) (scraped_content : ScrapedContent)
    (w w' : W) (e : exn) :
  search_fails responses_create (query_of request (title scraped_content)) w w' e →
  search_step responses_create request scraped_content true w
  = (w', Ok {| ws_topic := Some (title scraped_content);
               ws_search_results := Some (error_result e) |}).
Proof.
  intros Hfail. rewrite search_step_run, search_related_info_run.
  destruct Hfail as [-> | (response & -> & ->)]; done.
Qed.

(** *** The variation loop *)

Lemma calls_succeed_length (prompt : str) (indices : list nat)
    (contents : list str) (w w' : W) :
  calls_succeed chat_create prompt indices contents w w' → length contents = length indices.
Proof. induction 1; cbn [length]; congruence. Qed.

Lemma generate_variations_ok
    (request : LineContentRequest) (selected_images : list str) (prompt : str)
    (indices : list nat) (contents : list str) (w w' : W) :
  calls_succeed chat_create prompt indices contents w w' →
  ∀ variations,
    generate_variations chat_create request selected_images prompt indices variations w
    = (w', Ok (variations ++ List.map (variation_of request selected_images) contents)).
Proof.
  induction 1 as [w|i indices content contents w w' w'' response Hcall Hread _ IH];
    intros variations; cbn [generate_variations List.map].
  - run_io. by rewrite app_nil_r.
  - run_io. rewrite Hcall, Hread, IH, <- app_assoc. reflexivity.
Qed.

Lemma generate_variations_raised
    (request : LineContentRequest) (selected_images : list str) (prompt : str)
    (indices : list nat) (w w' : W) (e : exn) :
  call_fails chat_create prompt indices w w' e →
  ∀ variations,
    generate_variations chat_create request selected_images prompt indices variations w
    = (w', Raised e).
Proof.
  induction 1 as [i indices w w' e Hcall
                 |i indices w w' response e Hcall Hread
                 |i indices w w' w'' response content e Hcall Hread _ IH];
    intros variations; cbn [generate_variations]; run_io.
  - by rewrite Hcall.
  - by rewrite Hcall, Hread.
  - by rewrite Hcall, Hread, IH.
Qed.

(** Every run of the calls ends in one of the two ways. *)
Lemma calls_succeed_or_fail (prompt : str) (indices : list nat) (w : W) :
  (∃ w' contents, calls_succeed chat_create prompt indices contents w w')
  ∨ (∃ w' e, call_fails chat_create prompt indices w w' e).
Proof.
  revert w. induction indices as [|i indices IH]; intros w.
  - left. exists w, []. constructor.
  - destruct (chat_create (variation_request prompt i) w) as [w' [response|e]] eqn:Hcall.
    + destruct (first_choice response) as [content|e] eqn:Hread.
      * destruct (IH w') as [(w'' & contents & Hok) | (w'' & e & Hfail)].
        -- left. exists w'', (content :: contents). by econstructor.
        -- right. exists w'', e. by eapply fails_later.
      * right. exists w', e. by eapply fails_read.
    + right. exists w', e. by apply fails_call.
Qed.

Lemma calls_succeed_not_fail (prompt : str) (indices : list nat)
    (contents : list str) (w w' w'' : W) (e : exn) :
  calls_succeed chat_create prompt indices contents w w' →
  call_fails chat_create prompt indices w w'' e → False.
Proof.
  intros Hok. revert w'' e.
  induction Hok as [w|i indices content contents w w1 w2 response Hcall Hread _ IH];
    intros w'' e Hfail.
  - inversion Hfail.
  - inversion Hfail as [? ? ? ? ? Hcall'
                       |? ? ? ? ? ? Hcall' Hread'
                       |? ? ? w3 ? ? ? ? Hcall' Hread' Hrest]; subst.
    + congruence.
    + congruence.
    + assert (w1 = w3) as -> by congruence. eauto.
Qed.

(** *** [generate_line_content] by its two steps *)

Lemma generate_line_content_run
    (request : LineContentRequest) (scraped_content : ScrapedContent)
    (selected_images : list str) (use_web_search : bool)
    (w w1 : W) (web_search_info : WebSearchInfo) :
  search_step responses_create request scraped_content use_web_search w = (w1, Ok web_search_info) →
  generate_line_content chat_create responses_create request scraped_content selected_images use_web_search w
  = match
      generate_variations chat_create request selected_images
        (_build_prompt request scraped_content selected_images (Some web_search_info))
        (seq 0 3) [] w1
    with
    | (w', Ok variations) => (w', Ok variations)
    | (w', Raised e) => (w', Raised (generation_error e))
    end.
Proof.
  intros Hsearch. unfold generate_line_content. run_io.
  rewrite Hsearch. reflexivity.
Qed.

(** C2. The variant generation is all or nothing.  After the search step,
    which always returns, the three backend calls either all answer, and
    then the result is the list of exactly three variations, one per call
    in the order of the calls; or one of them fails, and then the whole
    operation raises the generation error made from that failure.  A list
    that is returned has three entries: no shorter list ever is. *)
Theorem generate_line_content_all_or_nothing
    (request : LineContentRequest) (scraped_content : ScrapedContent)
    (selected_images : list str) (use_web_search : bool) (w : W) :
  ∃ w1 web_search_info,
    search_step responses_create request scraped_content use_web_search w = (w1, Ok web_search_info)
    ∧ let prompt :=
        _build_prompt request scraped_content selected_images (Some web_search_info) in
      (∀ w' contents,
         calls_succeed chat_create prompt (seq 0 3) contents w1 w' →
         length contents = 3%nat
         ∧ generate_line_content chat_create responses_create request scraped_content selected_images use_web_search w
           = (w', Ok (List.map (variation_of request selected_images) contents)))
      ∧ (∀ w' e,
           call_fails chat_create prompt (seq 0 3) w1 w' e →
           generate_line_content chat_create responses_create request scraped_content selected_images use_web_search w
           = (w', Raised (generation_error e)))
      ∧ ((∃ w' contents, calls_succeed chat_create prompt (seq 0 3) contents w1 w')
         ∨ (∃ w' e, call_fails chat_create prompt (seq 0 3) w1 w' e))
      ∧ (∀ w' w'' contents e,
           calls_succeed chat_create prompt (seq 0 3) contents w1 w' →
           call_fails chat_create prompt (seq 0 3) w1 w'' e → False)
      ∧ (∀ w' variations,
           generate_line_content chat_create responses_create request scraped_content selected_images use_web_search w
           = (w', Ok variations) →
           length variations = 3%nat).
Proof.
  destruct (search_step_total request scraped_content use_web_search w)
    as (w1 & web_search_info & Hsearch).
  exists w1, web_search_info. split; [done|]. intros prompt.
  assert (Hok : ∀ w' contents,
            calls_succeed chat_create prompt (seq 0 3) contents w1 w' →
            length contents = 3%nat
            ∧ generate_line_content chat_create responses_create request scraped_content selected_images
                use_web_search w
              = (w', Ok (List.map (variation_of request selected_images) contents))).
  { intros w' contents Hcalls. split.
    - by apply calls_succeed_length in Hcalls.
    - rewrite (generate_line_content_run _ _ _ _ _ _ _ Hsearch).
      fold prompt. by rewrite (generate_variations_ok _ _ _ _ _ _ _ Hcalls). }
  assert (Hfail : ∀ w' e,
            call_fails chat_create prompt (seq 0 3) w1 w' e →
            generate_line_content chat_create responses_create request scraped_content selected_images
              use_web_search w
            = (w', Raised (generation_error e))).
  { intros w' e Hcalls.
    rewrite (generate_line_content_run _ _ _ _ _ _ _ Hsearch).
    fold prompt. by rewrite (generate_variations_raised _ _ _ _ _ _ _ Hcalls). }
  split_and!; [done | done | apply calls_succeed_or_fail
              | intros w' w'' contents e; apply calls_succeed_not_fail |].
  intros w' variations Hrun.
  destruct (calls_succeed_or_fail prompt (seq 0 3) w1)
    as [(w2 & contents & Hcalls) | (w2 & e & Hcalls)].
  - destruct (Hok _ _ Hcalls) as [Hlen Heq]. rewrite Heq in Hrun.
    injection Hrun as _ <-. by rewrite length_map.
  - rewrite (Hfail _ _ Hcalls) in Hrun. discriminate.
Qed.

(** C7. With the search enabled, a failure of the search backend, be it a
    raised exception or a response that cannot be read, is turned into
    the enrichment with the empty summary and no citation; the search
    step returns it and never raises.  The run goes on to the generation:
    with a backend that answers the three calls it returns the three
    variations, and when it raises, the exception is the generation error
    of a failed generation call, never the failure of the search. *)
Theorem search_failure_is_isolated
    (request : LineContentRequest) (scraped_content : ScrapedContent)
    (selected_images : list str) (w : W) :
  ∃ w1 web_search_info,
    search_step responses_create request scraped_content true w = (w1, Ok web_search_info)
    ∧ (∀ w' e,
         search_fails responses_create (query_of request (title scraped_content)) w w' e →
         w1 = w'
         ∧ web_search_info
           = {| ws_topic := Some (title scraped_content);
                ws_search_results := Some (error_result e) |}
         ∧ sr_summary (error_result e) = Some []
         ∧ sr_citations (error_result e) = Some [])
    ∧ let prompt :=
        _build_prompt request scraped_content selected_images (Some web_search_info) in
      (∀ w' contents,
         calls_succeed chat_create prompt (seq 0 3) contents w1 w' →
         length contents = 3%nat
         ∧ generate_line_content chat_create responses_create request scraped_content selected_images true w
           = (w', Ok (List.map (variation_of request selected_images) contents)))
      ∧ (∀ w' e,
           generate_line_content chat_create responses_create request scraped_content selected_images true w
           = (w', Raised e) →
           ∃ cause, call_fails chat_create prompt (seq 0 3) w1 w' cause
                    ∧ e = generation_error cause).
Proof.
  destruct (search_step_total request scraped_content true w)
    as (w1 & web_search_info & Hsearch).
  exists w1, web_search_info. split_and!; [done | |].
  - intros w' e Hfail. rewrite (search_step_failure _ _ _ _ _ Hfail) in Hsearch.
    injection Hsearch as <- <-. done.
  - intros prompt. split.
    + intros w' contents Hcalls. split.
      * by apply calls_succeed_length in Hcalls.
      * rewrite (generate_line_content_run _ _ _ _ _ _ _ Hsearch).
        fold prompt. by rewrite (generate_variations_ok _ _ _ _ _ _ _ Hcalls).
    + intros w' e Hrun.
      rewrite (generate_line_content_run _ _ _ _ _ _ _ Hsearch) in Hrun.
      fold prompt in Hrun.
      destruct (calls_succeed_or_fail prompt (seq 0 3) w1)
        as [(w2 & contents & Hcalls) | (w2 & cause & Hcalls)].
      * by rewrite (generate_variations_ok _ _ _ _ _ _ _ Hcalls) in Hrun.
      * rewrite (generate_variations_raised _ _ _ _ _ _ _ Hcalls) in Hrun.
        injection Hrun as <- <-. eauto.
Qed.

(** C1, on the code.  When the search backend fails, the search step
    hands the builder an enrichment whose summary is the empty text, and
    the prompt built from it, which is the prompt of the three generation
    calls, has the enrichment section with its header and nothing under
    it. *)
Theorem failed_search_prompt_has_header
    (request : LineContentRequest) (scraped_content : ScrapedContent)
    (selected_images : list str) (w w' : W) (e : exn) :
  search_fails responses_create (query_of request (title scraped_content)) w w' e →
  ∃ web_search_info,
    search_step responses_create request scraped_content true w = (w', Ok web_search_info)
    ∧ (sr ← ws_search_results web_search_info; sr_summary sr) = Some []
    ∧ web_search_section (Some web_search_info)
      = lines ["";
               "            # Web検索で収集した追加情報";
               "            ";
               "            ";
               "            ";
               "            この情報を適切に利用して、記事の内容を充実させてください。ただし、過度に専門的になりすぎず、LINE配信の読みやすさを保ってください。";
               "            "]
    ∧ contains SEARCH_HEADER
        (_build_prompt request scraped_content selected_images (Some web_search_info))
      = true.
Proof.
  intros Hfail. eexists. split; [by apply search_step_failure|].
  split; [reflexivity|].
  apply (error_result_prompt_has_header request scraped_content selected_images).
Qed.

End PipelineProperties.

Lemma failed_search_prompt_has_header_witness :
  ∃ web_search_info,
    search_step failing_search sample_request sample_article true tt
    = (tt, Ok web_search_info)
    ∧ (sr ← ws_search_results web_search_info; sr_summary sr) = Some []
    ∧ web_search_section (Some web_search_info)
      = lines ["";
               "            # Web検索で収集した追加情報";
               "            ";
               "            ";
               "            ";
               "            この情報を適切に利用して、記事の内容を充実させてください。ただし、過度に専門的になりすぎず、LINE配信の読みやすさを保ってください。";
               "            "]
    ∧ contains SEARCH_HEADER
        (_build_prompt sample_request sample_article [] (Some web_search_info))
      = true.
Proof.
  apply (failed_search_prompt_has_header failing_search sample_request
           sample_article [] tt tt search_timeout).
  left. reflexivity.
Defined.

Lemma generate_line_content_all_or_nothing_witness :
  length [lit "Sale!"; lit "Sale!"; lit "Sale!"] = 3%nat
  ∧ generate_line_content steady_chat failing_search sample_request sample_article
      [] true tt
    = (tt, Ok (List.map (variation_of sample_request [])
                 [lit "Sale!"; lit "Sale!"; lit "Sale!"])).
Proof.
  destruct (generate_line_content_all_or_nothing steady_chat failing_search
              sample_request sample_article [] true tt)
    as (w1 & web_search_info & _ & Hok & _).
  destruct w1. apply Hok. repeat econstructor.
Defined.

Lemma search_failure_is_isolated_witness :
  search_step failing_search sample_request sample_article true tt
  = (tt, Ok {| ws_topic := Some (title sample_article);
               ws_search_results := Some (error_result search_timeout) |})
  ∧ generate_line_content steady_chat failing_search sample_request sample_article
      [] true tt
    = (tt, Ok (List.map (variation_of sample_request [])
                 [lit "Sale!"; lit "Sale!"; lit "Sale!"])).
Proof.
  destruct (search_failure_is_isolated steady_chat failing_search
              sample_request sample_article [] tt)
    as (w1 & web_search_info & Hsearch & Hfail & Hok & _).
  destruct (Hfail tt search_timeout) as (-> & -> & _); [left; reflexivity|].
  split; [exact Hsearch|]. apply Hok. repeat econstructor.
Defined.

(** A whole run in that world: the search times out, the three calls are
    answered, and each answer tells that the prompt carried the header. *)
Example failed_search_run :
  generate_line_content echo_chat failing_search sample_request sample_article
    [] true tt
  = (tt, Ok (List.map (variation_of sample_request [])
               [lit "header seen"; lit "header seen"; lit "header seen"])).
Proof. vm_compute. reflexivity. Qed.

(** ** The temperatures of the three calls *)



(** * Further properties *)

(** ** Reading a search response *)

(** The inner loop keeps the two keys it does not write and leaves the
    summary and the citations of the last text block that sets them. *)
Lemma fold_read_content (contents : list OutputContent) (result : SearchResults) :
  fold_left read_content contents result
  = {| sr_search_results := sr_search_results result;
       sr_error := sr_error result;
       sr_summary :=
         match last (List.filter is_text_block contents) with
         | Some c => Some (oc_text c)
         | None => sr_summary result
         end;
       sr_citations :=
         match last (omap oc_annotations (List.filter is_text_block contents)) with
         | Some annotations => Some (citations_of annotations)
         | None => sr_citations result
         end |}.
Proof.
  revert result. induction contents as [|c contents IH]; intros result.
  - by destruct result.
  - cbn [fold_left List.filter]. rewrite IH. unfold read_content, is_text_block.
    case_bool_decide as Hc.
    + cbn [omap list_omap]. rewrite last_cons.
      destruct (last (List.filter _ contents)) as [c'|];
        destruct (oc_annotations c) as [annotations|];
        rewrite ?last_cons;
        by destruct (last (omap oc_annotations (List.filter _ contents))).
    + done.
Qed.

Lemma read_output_blocks (items : list OutputItem) (result r : SearchResults) :
  read_output result items = Ok r →
  r = fold_left read_content (message_contents items) result.
Proof.
  revert result. induction items as [|item items IH]; intros result;
    cbn [read_output message_contents List.flat_map].
  - by intros [= <-].
  - case_bool_decide as Hm; [|by apply IH].
    destruct (item_content item) as [contents|]; [|done].
    cbn [default from_option id]. rewrite fold_left_app. by apply IH.
Qed.

(** Reading fails exactly on an output with an unreadable message item. *)
Lemma read_output_raises (items : list OutputItem) (result : SearchResults) :
  (∃ e, read_output result items = Raised e) ↔ Exists (λ item, unreadable item = true) items.
Proof.
  revert result. induction items as [|item items IH]; intros result;
    cbn [read_output].
  - split; [by intros [e ?] | by intros ?%Exists_nil].
  - rewrite Exists_cons. unfold unreadable at 1. case_bool_decide as Hm.
    + destruct (item_content item) as [contents|] eqn:Hc.
      * rewrite IH. rewrite bool_decide_eq_false_2 by done. cbn. naive_solver.
      * split; [|by eauto]. intros _. left. by rewrite bool_decide_eq_true_2.
    + rewrite IH. cbn. naive_solver.
Qed.

Lemma read_output_keeps_last_aux (items : list OutputItem) (r : SearchResults) :
  read_output initial_result items = Ok r →
  sr_error r = None ∧ sr_search_results r = Some [].
Proof. intros ->%read_output_blocks. by rewrite fold_read_content. Qed.

(** The summary of a response that can be read. *)
Lemma read_output_summary (items : list OutputItem) (r : SearchResults) :
  read_output initial_result items = Ok r →
  sr_summary r = oc_text <$> last (text_blocks items).
Proof.
  intros ->%read_output_blocks. rewrite fold_read_content. unfold text_blocks.
  cbn [sr_summary initial_result]. by destruct (last _).
Qed.

(** X1. Of a response that can be read, the search keeps the text of the
    last text block among the message items as its summary, and the URL
    citations of the last text block that carries annotations, in their
    order, as its citations; with no text block the result has no summary
    key.  It never has an error key, and its search_results entry is the
    empty list. *)
Theorem read_output_keeps_last (items : list OutputItem) (r : SearchResults) :
  read_output initial_result items = Ok r →
  sr_summary r = oc_text <$> last (text_blocks items)
  ∧ sr_citations r
    = citations_of <$> last (omap oc_annotations (text_blocks items))
  ∧ sr_error r = None
  ∧ sr_search_results r = Some [].
Proof.
  intros ->%read_output_blocks. rewrite fold_read_content. unfold text_blocks.
  cbn [sr_summary sr_citations sr_error sr_search_results initial_result].
  split_and!; [| |done|done].
  - by destruct (last _).
  - by destruct (last _).
Qed.

Lemma read_output_keeps_last_witness :
  sr_summary
    {| sr_search_results := Some []; sr_error := None;
       sr_summary := Some (lit "second"); sr_citations := Some [] |}
  = oc_text <$> last (text_blocks
      [ {| item_type := lit "web_search_call"; item_content := None |};
        {| item_type := lit "message";
           item_content := Some
             [ {| oc_type := lit "output_text"; oc_text := lit "first";
                  oc_annotations := None |};
               {| oc_type := lit "output_text"; oc_text := lit "second";
                  oc_annotations := Some [] |} ] |} ]).
Proof.
  apply (read_output_keeps_last
           [ {| item_type := lit "web_search_call"; item_content := None |};
             {| item_type := lit "message";
                item_content := Some
                  [ {| oc_type := lit "output_text"; oc_text := lit "first";
                       oc_annotations := None |};
                    {| oc_type := lit "output_text"; oc_text := lit "second";
                       oc_annotations := Some [] |} ] |} ]).
  vm_compute. reflexivity.
Defined.

(** ** The search step *)

Section SearchStepProperties.

Context {W : Type}.
Variable chat_create : ChatRequest → io W ChatResponse.
Variable responses_create : SearchRequest → io W SearchResponse.

(** X2. With the search on, the search step always hands the builder a
    dict with both keys, the topic being the title of the article; the
    handler of [generate_line_content] that would leave the empty dict is
    never reached.  Its search results carry the error key exactly when
    the call raised or the response had an unreadable message item, and
    then they are the error dict; otherwise they carry the empty
    search_results list. *)
Theorem search_step_keys
    (request : LineContentRequest) (scraped_content : ScrapedContent) (w : W) :
  ∃ w' r,
    search_step responses_create request scraped_content true w
    = (w', Ok {| ws_topic := Some (title scraped_content);
                 ws_search_results := Some r |})
    ∧ (is_Some (sr_error r)
       ↔ ∃ e, search_fails responses_create
                (query_of request (title scraped_content)) w w' e)
    ∧ (∀ e, search_fails responses_create
              (query_of request (title scraped_content)) w w' e →
            r = error_result e)
    ∧ (sr_error r = None → sr_search_results r = Some [])
    ∧ (∀ response,
         responses_create
           (search_request (query_of request (title scraped_content)) (lit "JP")) w
         = (w', Ok response) →
         (is_Some (sr_error r)
          ↔ Exists (λ item, unreadable item = true) (output response))).
Proof.
  rewrite search_step_run, search_related_info_run. unfold search_fails.
  destruct (responses_create _ w) as [w' [response|e]] eqn:Hcall.
  - destruct (read_output initial_result (output response)) as [r|e] eqn:Hread.
    + exists w', r. split; [done|].
      destruct (read_output_keeps_last_aux _ _ Hread) as (Herr & Hsr).
      split_and!.
      * rewrite Herr. split; [by intros [? ?]|].
        intros (e & [Hc | (response' & Hc & Hr)]); congruence.
      * intros e [Hc | (response' & Hc & Hr)]; congruence.
      * done.
      * intros response' [= <-].
        rewrite Herr, <- (read_output_raises _ initial_result), Hread.
        split; [by intros [? ?] | by intros [? ?]].
    + exists w', (error_result e). split; [done|]. split_and!.
      * split; [|by eauto]. intros _. exists e. right. eauto.
      * intros e' [Hc | (response' & Hc & Hr)]; congruence.
      * done.
      * intros response' [= <-].
        rewrite <- (read_output_raises _ initial_result), Hread.
        split; eauto.
  - exists w', (error_result e). split; [done|]. split_and!.
    + split; [|by eauto]. intros _. exists e. by left.
    + intros e' [Hc | (response' & Hc & Hr)]; congruence.
    + done.
    + intros response' [=].
Qed.

End SearchStepProperties.

(** ** The prompt and the search results *)

Lemma contains_piece (ls : list str) (i : nat) (x : str) :
  ls !! i = Some x → contains x (concat ls) = true.
Proof.
  intros Hi. apply contains_infix. rewrite (concat_middle ls i x Hi). eauto.
Qed.

Lemma contains_trans (a b c : str) :
  contains a b = true → contains b c = true → contains a c = true.
Proof.
  rewrite !contains_infix. intros (a1 & a2 & ->) (b1 & b2 & ->).
  exists (b1 ++ a1), (a2 ++ b2). by rewrite <- !app_assoc.
Qed.

(** A dict that prints no section gives the prompt of no dict at all. *)
Lemma build_prompt_no_section
    (request : LineContentRequest) (scraped_content : ScrapedContent)
    (selected_images : list str) (web_search_info : option WebSearchInfo) :
  web_search_section web_search_info = [] →
  _build_prompt request scraped_content selected_images web_search_info
  = _build_prompt request scraped_content selected_images None.
Proof.
  intros Hs. unfold _build_prompt, prompt_pieces. rewrite Hs.
  change (web_search_section None) with (@nil N). reflexivity.
Qed.

(** The prompts of two dicts that print different sections differ. *)
Lemma build_prompt_section_inj
    (request : LineContentRequest) (scraped_content : ScrapedContent)
    (selected_images : list str) (info1 info2 : option WebSearchInfo) :
  _build_prompt request scraped_content selected_images info1
  = _build_prompt request scraped_content selected_images info2 →
  web_search_section info1 = web_search_section info2.
Proof.
  rewrite !build_prompt_search_section.
  change (take 9 (prompt_pieces request scraped_content selected_images info1))
    with (take 9 (prompt_pieces request scraped_content selected_images info2)).
  change (drop 10 (prompt_pieces request scraped_content selected_images info1))
    with (drop 10 (prompt_pieces request scraped_content selected_images info2)).
  intros H%app_inv_head. by apply app_inv_tail in H.
Qed.

Section PromptSearchProperties.

Context {W : Type}.
Variable responses_create : SearchRequest → io W SearchResponse.

Lemma search_step_read
    (request : LineContentRequest) (scraped_content : ScrapedContent)
    (w w' : W) (response : SearchResponse) :
  responses_create
    (search_request (query_of request (title scraped_content)) (lit "JP")) w
  = (w', Ok response) →
  ¬ Exists (λ item, unreadable item = true) (output response) →
  ∃ r, read_output initial_result (output response) = Ok r
       ∧ search_step responses_create request scraped_content true w
         = (w', Ok {| ws_topic := Some (title scraped_content);
                      ws_search_results := Some r |}).
Proof.
  intros Hcall Hreadable. rewrite search_step_run, search_related_info_run, Hcall.
  destruct (read_output initial_result (output response)) as [r|e] eqn:Hread.
  - eauto.
  - destruct Hreadable. apply (read_output_raises _ initial_result). eauto.
Qed.

(** X3. The prompt has no enrichment section exactly when the search is
    off, or the search call returns a response that can be read and has
    no text block; and exactly then it is the very prompt built without
    search information.  A call that raises and a response that cannot
    be read both leave the section in the prompt. *)
Theorem prompt_without_search_section
    (request : LineContentRequest) (scraped_content : ScrapedContent)
    (selected_images : list str) (use_web_search : bool)
    (w w1 : W) (web_search_info : WebSearchInfo) :
  search_step responses_create request scraped_content use_web_search w
  = (w1, Ok web_search_info) →
  let silent :=
    use_web_search = false
    ∨ ∃ response,
        responses_create
          (search_request (query_of request (title scraped_content)) (lit "JP")) w
        = (w1, Ok response)
        ∧ text_blocks (output response) = []
        ∧ ¬ Exists (λ item, unreadable item = true) (output response) in
  (web_search_section (Some web_search_info) = [] ↔ silent)
  ∧ (_build_prompt request scraped_content selected_images (Some web_search_info)
     = _build_prompt request scraped_content selected_images None
     ↔ silent).
Proof.
  intros Hstep silent.
  assert (web_search_section (Some web_search_info) = [] ↔ silent) as Hsection.
  { split.
    - intros Hempty. unfold silent.
      destruct use_web_search; [right | by left].
      rewrite search_step_run, search_related_info_run in Hstep.
      destruct (responses_create _ w) as [w' [response|e]] eqn:Hcall.
      + destruct (read_output initial_result (output response)) as [r|e] eqn:Hread.
        * injection Hstep as <- <-. exists response. split; [done|].
          destruct (sr_summary r) as [summary|] eqn:Hsummary.
          { by rewrite (web_search_section_present _ _ _ Hsummary) in Hempty. }
          rewrite (read_output_summary _ _ Hread) in Hsummary. split.
          -- apply fmap_None in Hsummary. by apply last_None in Hsummary.
          -- intros [e He]%(read_output_raises _ initial_result). congruence.
        * injection Hstep as <- <-.
          by rewrite (web_search_section_present _ (error_result e) [] eq_refl)
            in Hempty.
      + injection Hstep as <- <-.
        by rewrite (web_search_section_present _ (error_result e) [] eq_refl)
          in Hempty.
    - intros Hcase.
      destruct use_web_search; [|injection Hstep as _ <-; reflexivity].
      destruct Hcase as [? | (response & Hcall & Hblocks & Hreadable)]; [done|].
      destruct (search_step_read request scraped_content w w1 response Hcall Hreadable)
        as (r & Hread & Hstep').
      rewrite Hstep' in Hstep. injection Hstep as <-.
      apply web_search_section_absent. cbn.
      rewrite (read_output_summary _ _ Hread).
      by rewrite Hblocks. }
  split; [done|]. rewrite <- Hsection. split.
  - apply build_prompt_section_inj.
  - apply build_prompt_no_section.
Qed.

(** X4. When the search answers with a readable response, the prompt
    carries the header of the enrichment section and, under it, the text
    of the last text block of the response. *)
Theorem prompt_carries_summary
    (request : LineContentRequest) (scraped_content : ScrapedContent)
    (selected_images : list str) (w w1 : W)
    (response : SearchResponse) (c : OutputContent) :
  responses_create
    (search_request (query_of request (title scraped_content)) (lit "JP")) w
  = (w1, Ok response) →
  ¬ Exists (λ item, unreadable item = true) (output response) →
  last (text_blocks (output response)) = Some c →
  ∃ web_search_info,
    search_step responses_create request scraped_content true w
    = (w1, Ok web_search_info)
    ∧ web_search_section (Some web_search_info)
      = (nl ++ lit "            ") ++ SEARCH_HEADER
        ++ lines [""; "            "; "            "] ++ oc_text c
        ++ lines ["";
                  "            ";
                  "            この情報を適切に利用して、記事の内容を充実させてください。ただし、過度に専門的になりすぎず、LINE配信の読みやすさを保ってください。";
                  "            "]
    ∧ contains SEARCH_HEADER
        (_build_prompt request scraped_content selected_images (Some web_search_info))
      = true
    ∧ contains (oc_text c)
        (_build_prompt request scraped_content selected_images (Some web_search_info))
      = true.
Proof.
  intros Hcall Hreadable Hlast.
  destruct (search_step_read request scraped_content w w1 response Hcall Hreadable)
    as (r & Hread & Hstep).
  eexists. split; [exact Hstep|].
  pose proof (read_output_summary _ _ Hread) as Hsummary.
  rewrite Hlast in Hsummary.
  pose proof (web_search_section_present (Some (title scraped_content)) r
                (oc_text c) Hsummary) as Hsection.
  assert (contains
            (web_search_section
               (Some {| ws_topic := Some (title scraped_content);
                        ws_search_results := Some r |}))
            (_build_prompt request scraped_content selected_images
               (Some {| ws_topic := Some (title scraped_content);
                        ws_search_results := Some r |})) = true) as Hin
    by (apply (contains_piece _ 9); reflexivity).
  split_and!; [exact Hsection | |].
  - eapply contains_trans; [|exact Hin]. apply contains_infix.
    rewrite Hsection. eauto.
  - eapply contains_trans; [|exact Hin]. apply contains_infix.
    rewrite Hsection.
    exists ((nl ++ lit "            ") ++ SEARCH_HEADER
            ++ lines [""; "            "; "            "]).
    eexists. rewrite <- !app_assoc. reflexivity.
Qed.

End PromptSearchProperties.

Lemma prompt_without_search_section_witness :
  web_search_section
    (Some {| ws_topic := Some (title sample_article);
             ws_search_results := Some initial_result |}) = []
  ∧ _build_prompt sample_request sample_article []
      (Some {| ws_topic := Some (title sample_article);
               ws_search_results := Some initial_result |})
    = _build_prompt sample_request sample_article [] None.
Proof.
  assert (∃ response,
            silent_search
              (search_request (query_of sample_request (title sample_article))
                 (lit "JP")) tt
            = (tt, Ok response)
            ∧ text_blocks (output response) = []
            ∧ ¬ Exists (λ item, unreadable item = true) (output response))
    as Hsilent.
  { eexists. split; [reflexivity|]. split; [reflexivity|].
    intros [H|H]%Exists_cons; [discriminate H | by apply Exists_nil in H]. }
  destruct (prompt_without_search_section silent_search sample_request
              sample_article [] true tt tt
              {| ws_topic := Some (title sample_article);
                 ws_search_results := Some initial_result |} eq_refl)
    as [Hsection Hprompt].
  split; [apply Hsection | apply Hprompt]; by right.
Defined.

Lemma prompt_carries_summary_witness :
  ∃ web_search_info,
    search_step steady_search sample_request sample_article true tt
    = (tt, Ok web_search_info)
    ∧ web_search_section (Some web_search_info)
      = (nl ++ lit "            ") ++ SEARCH_HEADER
        ++ lines [""; "            "; "            "] ++ lit "Open on Sunday"
        ++ lines ["";
                  "            ";
                  "            この情報を適切に利用して、記事の内容を充実させてください。ただし、過度に専門的になりすぎず、LINE配信の読みやすさを保ってください。";
                  "            "]
    ∧ contains SEARCH_HEADER
        (_build_prompt sample_request sample_article [] (Some web_search_info))
      = true
    ∧ contains (lit "Open on Sunday")
        (_build_prompt sample_request sample_article [] (Some web_search_info))
      = true.
Proof.
  apply (prompt_carries_summary steady_search sample_request sample_article [] tt tt
           {| output :=
                [ {| item_type := lit "message";
                     item_content := Some
                       [ {| oc_type := lit "output_text";
                            oc_text := lit "Open on Sunday";
                            oc_annotations := None |} ] |} ] |}
           {| oc_type := lit "output_text"; oc_text := lit "Open on Sunday";
              oc_annotations := None |}).
  - reflexivity.
  - intros [H|H]%Exists_cons; [discriminate H | by apply Exists_nil in H].
  - vm_compute. reflexivity.
Defined.

(** ** What a run asks of its backends *)

Section RunProperties.

Context {W : Type}.
Variable chat_create : ChatRequest → io W ChatResponse.
Variable responses_create : SearchRequest → io W SearchResponse.

(** A list that is returned is the list of the variations of three
    generated texts. *)
Lemma generate_line_content_ok_inv
    (request : LineContentRequest) (scraped_content : ScrapedContent)
    (selected_images : list str) (use_web_search : bool) (w w' : W)
    (variations : list GeneratedContent) :
  generate_line_content chat_create responses_create request scraped_content
    selected_images use_web_search w = (w', Ok variations) →
  ∃ contents, length contents = 3%nat
              ∧ variations = List.map (variation_of request selected_images) contents.
Proof.
  intros Hrun.
  destruct (search_step_total responses_create request scraped_content
              use_web_search w) as (w1 & web_search_info & Hsearch).
  rewrite (generate_line_content_run _ _ _ _ _ _ _ _ _ Hsearch) in Hrun.
  destruct (calls_succeed_or_fail chat_create
              (_build_prompt request scraped_content selected_images
                 (Some web_search_info)) (seq 0 3) w1)
    as [(w2 & contents & Hcalls) | (w2 & e & Hcalls)].
  - rewrite (generate_variations_ok _ _ _ _ _ _ _ _ Hcalls) in Hrun.
    injection Hrun as _ <-. exists contents.
    split; [by apply calls_succeed_length in Hcalls | done].
  - by rewrite (generate_variations_raised _ _ _ _ _ _ _ _ Hcalls) in Hrun.
Qed.

(** X5. In a returned list every variation has its own generated text
    followed by one and the same tail: the references to the selected
    images and the link to the source article.  An empty address for the
    source article gives no link. *)
Theorem variations_share_tail
    (request : LineContentRequest) (scraped_content : ScrapedContent)
    (selected_images : list str) (use_web_search : bool) (w w' : W)
    (variations : list GeneratedContent) :
  generate_line_content chat_create responses_create request scraped_content
    selected_images use_web_search w = (w', Ok variations) →
  Forall
    (λ v, gc_markdown v
          = gc_content v ++ image_refs selected_images
            ++ source_link_opt (Some (blog_url request)))
    variations
  ∧ (blog_url request = [] →
     Forall (λ v, gc_markdown v = gc_content v ++ image_refs selected_images)
       variations).
Proof.
  intros (contents & _ & ->)%generate_line_content_ok_inv. split.
  - apply List.Forall_map, Forall_forall. intros content _.
    apply format_as_markdown_eq.
  - intros Hurl. apply List.Forall_map, Forall_forall. intros content _.
    cbn [variation_of gc_markdown gc_content].
    rewrite format_as_markdown_eq. unfold markdown_spec. rewrite Hurl.
    cbn [source_link_opt]. by rewrite app_nil_r.
Qed.

(** X6. The fixed format of a request has no part in the generation: the
    prompt is built without it, and a run with another fixed format asks
    the same of the backends and returns the same. *)
Theorem fixed_format_is_ignored
    (request : LineContentRequest) (ff : option str)
    (scraped_content : ScrapedContent) (selected_images : list str)
    (web_search_info : option WebSearchInfo) (use_web_search : bool) (w : W) :
  _build_prompt (with_fixed_format request ff) scraped_content selected_images
    web_search_info
  = _build_prompt request scraped_content selected_images web_search_info
  ∧ generate_line_content chat_create responses_create
      (with_fixed_format request ff) scraped_content selected_images
      use_web_search w
    = generate_line_content chat_create responses_create request scraped_content
        selected_images use_web_search w.
Proof. split; reflexivity. Qed.

End RunProperties.

Lemma variations_share_tail_witness :
  Forall
    (λ v, gc_markdown v
          = gc_content v ++ image_refs []
            ++ source_link_opt (Some (blog_url sample_request)))
    (List.map (variation_of sample_request [])
       [lit "Sale!"; lit "Sale!"; lit "Sale!"]).
Proof.
  apply (variations_share_tail steady_chat failing_search sample_request
           sample_article [] true tt tt).
  vm_compute. reflexivity.
Defined.

(** ** The calls of a run *)

Section RunTrace.

Context {W : Type}.
Variable chat_create : ChatRequest → io W ChatResponse.
Variable responses_create : SearchRequest → io W SearchResponse.

Ltac unfold_io :=
  unfold logged, try_except, lift, raise, mbind, io_bind, mret, io_ret in *.

Lemma search_step_logged
    (request : LineContentRequest) (scraped_content : ScrapedContent)
    (use_web_search : bool) (w : W) (l : list event) :
  search_step (logged SearchCall responses_create) request scraped_content
    use_web_search (w, l)
  = let '(w', o) := search_step responses_create request scraped_content
                      use_web_search w in
    ((w', l ++ (if use_web_search then [search_call request scraped_content] else [])),
     o).
Proof.
  destruct use_web_search.
  - unfold search_step, enhance_content_with_web_search, search_related_info,
      search_call, query_of.
    unfold_io. cbn [fst snd].
    destruct (responses_create _ w) as [w' [response|e]]; [|done].
    by destruct (read_output initial_result (output response)).
  - unfold search_step. unfold_io. by rewrite app_nil_r.
Qed.

Lemma generate_variations_logged
    (request : LineContentRequest) (selected_images : list str) (prompt : str)
    (indices : list nat) (variations : list GeneratedContent)
    (w : W) (l : list event) :
  ∃ k, (k ≤ length indices)%nat
       ∧ (indices ≠ [] → 1 ≤ k)%nat
       ∧ generate_variations (logged ChatCall chat_create) request selected_images
           prompt indices variations (w, l)
         = (let '(w', o) := generate_variations chat_create request selected_images
                              prompt indices variations w in
            ((w', l ++ List.map (λ i, ChatCall (variation_request prompt i))
                         (take k indices)), o))
       ∧ (∀ w' vs,
            generate_variations chat_create request selected_images prompt indices
              variations w = (w', Ok vs) → k = length indices).
Proof.
  revert variations w l.
  induction indices as [|i indices IH]; intros variations w l.
  - exists 0%nat. split_and!; [done | done | | done].
    cbn [generate_variations]. unfold_io. cbn [take List.map]. by rewrite app_nil_r.
  - cbn [generate_variations]. unfold_io. cbn [fst snd].
    destruct (chat_create (variation_request prompt i) w) as [w1 [response|e]].
    + destruct (first_choice response) as [content|e].
      * destruct (IH (variations ++
                        [{| gc_content := content;
                            gc_markdown :=
                              _format_as_markdown content selected_images
                                (Some (blog_url request)) |}])
                    w1 (l ++ [ChatCall (variation_request prompt i)]))
          as (k & Hk & _ & Hrun & Hok).
        exists (S k). split_and!; [cbn [length]; lia | lia | |].
        -- unfold_io. rewrite Hrun.
           destruct (generate_variations chat_create _ _ _ _ _ w1) as [w2 o].
           cbn [take List.map]. by rewrite <- app_assoc.
        -- intros w' vs Hvs. cbn [length]. f_equal. by eapply Hok.
      * exists 1%nat. split_and!; [cbn [length]; lia | done | | done].
        cbn [take List.map]. by rewrite take_0.
    + exists 1%nat. split_and!; [cbn [length]; lia | done | | done].
      cbn [take List.map]. by rewrite take_0.
Qed.

(** X7. The calls of one run, in the order they are made: the one search
    call when the search is on and none when it is off, then the
    generation calls of the indices 0, 1, ... in their order, all with
    the one prompt.  There are at least one and at most three generation
    calls, three when the run returns; no call is made twice.
    Writing the calls down changes nothing of the run. *)
Theorem run_calls
    (request : LineContentRequest) (scraped_content : ScrapedContent)
    (selected_images : list str) (use_web_search : bool) (w : W) :
  ∃ w1 web_search_info k,
    search_step responses_create request scraped_content use_web_search w
    = (w1, Ok web_search_info)
    ∧ (1 ≤ k ≤ 3)%nat
    ∧ generate_line_content (logged ChatCall chat_create)
        (logged SearchCall responses_create) request scraped_content
        selected_images use_web_search (w, [])
      = (let '(w', o) := generate_line_content chat_create responses_create request
                           scraped_content selected_images use_web_search w in
         ((w',
           (if use_web_search then [search_call request scraped_content] else [])
           ++ List.map
                (λ i, ChatCall
                        (variation_request
                           (_build_prompt request scraped_content selected_images
                              (Some web_search_info)) i))
                (seq 0 k)),
          o))
    ∧ (∀ w' variations,
         generate_line_content chat_create responses_create request scraped_content
           selected_images use_web_search w = (w', Ok variations) →
         k = 3%nat).
Proof.
  destruct (search_step_total responses_create request scraped_content
              use_web_search w) as (w1 & web_search_info & Hsearch).
  pose proof (search_step_logged request scraped_content use_web_search w [])
    as Hlogged. rewrite Hsearch in Hlogged. cbn [app] in Hlogged.
  destruct (generate_variations_logged request selected_images
              (_build_prompt request scraped_content selected_images
                 (Some web_search_info))
              (seq 0 3) [] w1
              (if use_web_search then [search_call request scraped_content] else []))
    as (k & Hk & Hk1 & Hrun & Hok).
  exists w1, web_search_info, k. split; [done|].
  split; [split; [by apply Hk1 | exact Hk]|].
  rewrite (generate_line_content_run _ _ _ _ _ _ _ _ _ Hsearch).
  rewrite (generate_line_content_run _ _ _ _ _ _ _ _ _ Hlogged), Hrun.
  assert (take k (seq 0 3) = seq 0 k) as ->.
  { cbn [length seq] in Hk. do 4 (destruct k as [|k]; [reflexivity|]). lia. }
  destruct (generate_variations chat_create _ _ _ _ _ w1) as [w2 [vs|e]] eqn:Hvs.
  - split; [done|]. intros w' variations _. by eapply Hok.
  - split; [done|]. intros w' variations [=].
Qed.

End RunTrace.

(** ** What the prompt prints *)

Lemma emotional_intro_line :
  lines [""; "        - 感情を誘発させる文頭: "]
  = (nl ++ lit "        ") ++ lit "- 感情を誘発させる文頭: ".
Proof. vm_compute. reflexivity. Qed.

(** X8. The prompt prints, as they are, the name and the site of the
    company, the title, the body cut to its first 1500 characters, and
    each of the twelve text parameters of the style; the one switch of
    the style, the emotional opening, is printed on its line as 必要 when
    it is set and as 不要 when it is not. *)
Theorem prompt_prints_the_request
    (request : LineContentRequest) (scraped_content : ScrapedContent)
    (selected_images : list str) (web_search_info : option WebSearchInfo) :
  Forall
    (λ t, contains t
            (_build_prompt request scraped_content selected_images web_search_info)
          = true)
    (printed_texts request scraped_content)
  ∧ contains
      (lit "- 感情を誘発させる文頭: "
       ++ (if add_emotional_intro request then lit "必要" else lit "不要"))
      (_build_prompt request scraped_content selected_images web_search_info)
    = true.
Proof.
  split.
  - unfold printed_texts, _build_prompt.
    repeat apply Forall_cons_2; [..|apply Forall_nil_2].
    + by apply (contains_piece _ 1).
    + by apply (contains_piece _ 3).
    + by apply (contains_piece _ 5).
    + by apply (contains_piece _ 7).
    + by apply (contains_piece _ 11).
    + by apply (contains_piece _ 13).
    + by apply (contains_piece _ 15).
    + by apply (contains_piece _ 17).
    + by apply (contains_piece _ 19).
    + by apply (contains_piece _ 21).
    + by apply (contains_piece _ 25).
    + by apply (contains_piece _ 27).
    + by apply (contains_piece _ 29).
    + by apply (contains_piece _ 31).
    + by apply (contains_piece _ 33).
    + by apply (contains_piece _ 35).
  - apply contains_infix.
    exists (concat (take 22 (prompt_pieces request scraped_content selected_images
                               web_search_info))
            ++ nl ++ lit "        "),
           (concat (drop 24 (prompt_pieces request scraped_content selected_images
                               web_search_info))).
    unfold _build_prompt. rewrite (concat_split_at 22), <- !app_assoc.
    apply app_inv_head_iff.
    rewrite (concat_drop_lookup _ 22
               (lines [""; "        - 感情を誘発させる文頭: "])) by done.
    rewrite (concat_drop_lookup _ 23
               (if add_emotional_intro request then lit "必要" else lit "不要"))
      by done.
    rewrite emotional_intro_line, <- !app_assoc. reflexivity.
Qed.

Lemma one_image_sentence :
  lit "記事には1枚の添付画像があります。画像について言及せず、テキストのみを生成してください。"
  = lit "記事には" ++ py_str_int 1
    ++ lit "枚の添付画像があります。画像について言及せず、テキストのみを生成してください。".
Proof. vm_compute. reflexivity. Qed.

(** X9. With at least one selected image, the image instruction and the
    image line of the requirements both print the number of selected
    images, and the prompt contains both; the sentence written out for a
    single image is the general sentence for the number 1. *)
Theorem image_count_is_printed
    (request : LineContentRequest) (scraped_content : ScrapedContent)
    (selected_images : list str) (web_search_info : option WebSearchInfo) :
  selected_images ≠ [] →
  image_instruction selected_images
  = lit "記事には" ++ py_str_int (length selected_images)
    ++ lit "枚の添付画像があります。画像について言及せず、テキストのみを生成してください。"
  ∧ image_field selected_images
    = lit "あり (" ++ py_str_int (length selected_images) ++ lit "枚)"
  ∧ contains (image_instruction selected_images)
      (_build_prompt request scraped_content selected_images web_search_info) = true
  ∧ contains (lit "- 画像: " ++ image_field selected_images)
      (_build_prompt request scraped_content selected_images web_search_info) = true.
Proof.
  intros Hne. split_and!.
  - unfold image_instruction. destruct selected_images as [|u l]; [done|].
    cbn [truthy]. case_bool_decide as Hlen; [|done].
    rewrite Hlen. apply one_image_sentence.
  - unfold image_field. by destruct selected_images.
  - by apply (contains_piece _ 39).
  - apply contains_infix. unfold _build_prompt.
    rewrite (concat_split_at 36).
    rewrite (concat_drop_lookup _ 36 (lines [""; "        - 画像: "])) by done.
    rewrite (concat_drop_lookup _ 37 (image_field selected_images)) by done.
    replace (lines [""; "        - 画像: "]) with ((nl ++ lit "        ") ++ lit "- 画像: ")
      by (vm_compute; reflexivity).
    exists (concat (take 36 (prompt_pieces request scraped_content selected_images
                               web_search_info))
            ++ nl ++ lit "        "),
           (concat (drop 38 (prompt_pieces request scraped_content selected_images
                               web_search_info))).
    rewrite <- !app_assoc. reflexivity.
Qed.

Lemma image_count_is_printed_witness :
  image_instruction [lit "https://example.com/img/a.jpg"]
  = lit "記事には" ++ py_str_int (length [lit "https://example.com/img/a.jpg"])
    ++ lit "枚の添付画像があります。画像について言及せず、テキストのみを生成してください。".
Proof.
  apply (image_count_is_printed sample_request sample_article
           [lit "https://example.com/img/a.jpg"] None).
  discriminate.
Defined.

(** X10. A reference template that is the empty text is treated as no
    template: the prompt is the same.  A template that is not empty is
    printed under the line that asks to follow it. *)
Theorem reference_template_section
    (request : LineContentRequest) (scraped_content : ScrapedContent)
    (selected_images : list str) (web_search_info : option WebSearchInfo) :
  _build_prompt (with_reference_template request (Some [])) scraped_content
    selected_images web_search_info
  = _build_prompt (with_reference_template request None) scraped_content
      selected_images web_search_info
  ∧ template_instruction (with_reference_template request None) = []
  ∧ (∀ t, reference_template request = Some t → t ≠ [] →
       template_instruction request
       = (nl ++ lit "            ") ++ TEMPLATE_HEADER
         ++ lines [""; "            "; "            "] ++ t
         ++ lines [""; "            "]
       ∧ contains TEMPLATE_HEADER
           (_build_prompt request scraped_content selected_images web_search_info)
         = true
       ∧ contains t
           (_build_prompt request scraped_content selected_images web_search_info)
         = true).
Proof.
  split_and!; [reflexivity | reflexivity |].
  intros t Ht Hne.
  assert (template_instruction request
          = (nl ++ lit "            ") ++ TEMPLATE_HEADER
            ++ lines [""; "            "; "            "] ++ t
            ++ lines [""; "            "]) as Hsection.
  { unfold template_instruction. rewrite Ht. destruct t as [|c t]; [done|].
    cbn [truthy_opt truthy from_option id].
    replace (lines [""; "            以下のテンプレートを参考にして、全体的な文調とフォーマットを模倣してください：";
                    "            "; "            "])
      with (((nl ++ lit "            ") ++ TEMPLATE_HEADER)
            ++ lines [""; "            "; "            "])
      by (vm_compute; reflexivity).
    by rewrite <- !app_assoc. }
  assert (contains (template_instruction request)
            (_build_prompt request scraped_content selected_images web_search_info)
          = true) as Hin by (by apply (contains_piece _ 41)).
  split_and!; [done | |].
  - eapply contains_trans; [|exact Hin]. apply contains_infix.
    rewrite Hsection. eauto.
  - eapply contains_trans; [|exact Hin]. apply contains_infix.
    rewrite Hsection.
    exists ((nl ++ lit "            ") ++ TEMPLATE_HEADER
            ++ lines [""; "            "; "            "]).
    eexists. rewrite <- !app_assoc. reflexivity.
Qed.

(** ** The scraper: removing repeated addresses *)

Lemma fold_set_key_dedup (keys d : list str) :
  fold_left dict_set_key keys d = d ++ filter (λ y, y ∉ d) (dedup_first keys).
Proof.
  revert d. induction keys as [|k keys IH]; intros d; cbn [fold_left dedup_first].
  - by rewrite filter_nil, app_nil_r.
  - rewrite IH. unfold dict_set_key. case_bool_decide as Hk.
    + f_equal. rewrite filter_cons_False by (intros Hn; by apply Hn).
      symmetry. apply list_filter_filter_l. intros x Hx ->. by apply Hx.
    + rewrite <- app_assoc. f_equal. rewrite filter_cons_True by done.
      cbn [app]. f_equal. rewrite list_filter_filter. apply list_filter_iff.
      intros x. rewrite not_elem_of_app, list_elem_of_singleton. tauto.
Qed.

Lemma dict_fromkeys_dedup (keys : list str) : dict_fromkeys keys = dedup_first keys.
Proof.
  unfold dict_fromkeys. rewrite fold_set_key_dedup. cbn [app].
  induction (dedup_first keys) as [|x l IH]; [done|].
  rewrite filter_cons_True by apply not_elem_of_nil. by rewrite IH.
Qed.

Lemma filter_ne_not_elem_of (k : str) (l : list str) :
  k ∉ l → filter (λ y, y ≠ k) l = l.
Proof.
  induction l as [|x l IH]; [done|]. intros [Hne Hk]%not_elem_of_cons.
  rewrite filter_cons_True by done. f_equal. by apply IH.
Qed.

Lemma dedup_first_NoDup (keys : list str) : NoDup keys → dedup_first keys = keys.
Proof.
  induction 1 as [|k keys Hk _ IH]; cbn [dedup_first]; [done|].
  by rewrite IH, filter_ne_not_elem_of.
Qed.

Lemma elem_of_collect_images
    (urljoin : str → str → str) (url : str) (element : node) (u : str) :
  u ∈ collect_images urljoin url element
  ↔ ∃ img src, img ∈ find_all (by_name [lit "img"]) element
               ∧ img_src img = Some src ∧ src ≠ [] ∧ u = urljoin url src.
Proof.
  unfold collect_images. rewrite list_elem_of_In, in_flat_map. split.
  - intros (img & Himg%list_elem_of_In & Hu).
    destruct (img_src img) as [[|c src]|] eqn:Hsrc; cbn in Hu; try done.
    destruct Hu as [<-|[]]. exists img, (c :: src). done.
  - intros (img & src & Himg%list_elem_of_In & Hsrc & Hne & ->).
    exists img. split; [done|]. rewrite Hsrc. destruct src; [done|]. by left.
Qed.

(** X11. For the document it is handed, the image extraction returns the
    addresses it collected with the later repeats of each removed: no
    address twice, none added, none lost, and a list without repeats
    unchanged.  Each address is the source of an [img] tag of the content
    element, or of the whole document when the content element gives
    none, joined to the address of the page. *)
Theorem extract_images_dedup
    (urljoin : str → str → str) (url : str) (soup : node) :
  let found :=
    if truthy (collect_images urljoin url (content_element soup))
    then collect_images urljoin url (content_element soup)
    else collect_images urljoin url soup in
  _extract_images urljoin url soup = dedup_first found
  ∧ NoDup (_extract_images urljoin url soup)
  ∧ (∀ u, u ∈ _extract_images urljoin url soup ↔ u ∈ found)
  ∧ (NoDup found → _extract_images urljoin url soup = found)
  ∧ (∀ u, u ∈ _extract_images urljoin url soup →
       ∃ element img src,
         (element = content_element soup ∨ element = soup)
         ∧ img ∈ find_all (by_name [lit "img"]) element
         ∧ img_src img = Some src ∧ src ≠ [] ∧ u = urljoin url src).
Proof.
  intros found.
  assert (_extract_images urljoin url soup = dict_fromkeys found) as Heq by done.
  rewrite Heq. split_and!.
  - apply dict_fromkeys_dedup.
  - apply dict_fromkeys_NoDup.
  - intros u. apply elem_of_dict_fromkeys.
  - intros Hnd. rewrite dict_fromkeys_dedup. by apply dedup_first_NoDup.
  - intros u Hu. rewrite elem_of_dict_fromkeys in Hu. unfold found in Hu.
    destruct (truthy (collect_images urljoin url (content_element soup)));
      apply elem_of_collect_images in Hu as (img & src & ? & ? & ? & ?);
      eauto 10.
Qed.

(** ** The scraper: surrounding whitespace *)

Lemma lstrip_head (s : str) (c : N) : head (lstrip s) = Some c → is_space c = false.
Proof.
  induction s as [|a s IH]; cbn [lstrip]; [done|].
  destruct (is_space a) eqn:Ha; [done|]. by intros [= <-].
Qed.

Lemma lstrip_last (s : str) (c : N) : last (lstrip s) = Some c → last s = Some c.
Proof.
  induction s as [|a s IH]; cbn [lstrip]; [done|].
  destruct (is_space a); [|done]. intros Hc. specialize (IH Hc).
  rewrite last_cons. by rewrite IH.
Qed.

Lemma strip_trimmed (s : str) : trimmed (strip s).
Proof.
  unfold trimmed, strip. split; intros c.
  - rewrite head_reverse. intros Hc%lstrip_last.
    rewrite last_reverse in Hc. by apply lstrip_head in Hc.
  - rewrite last_reverse. apply lstrip_head.
Qed.

Lemma join_non_empty (p : str) (parts : list str) :
  p ≠ [] → join nl (p :: parts) ≠ [].
Proof. destruct parts, p; done. Qed.

Lemma join_trimmed (parts : list str) :
  Forall (λ p, p ≠ [] ∧ trimmed p) parts → trimmed (join nl parts).
Proof.
  induction 1 as [|p parts [Hp Ht] Hparts IH]; [by split|].
  destruct parts as [|p' parts]; [exact Ht|]. destruct Ht as [Hhead _].
  apply Forall_cons_1 in Hparts as [[Hp' _] _].
  pose proof (join_non_empty p' parts Hp') as Hjoin.
  change (join nl (p :: p' :: parts)) with (p ++ nl ++ join nl (p' :: parts)).
  destruct IH as [_ Hlast]. split; intros c.
  - destruct p as [|a p]; [done|]. apply Hhead.
  - rewrite !last_app.
    destruct (last (join nl (p' :: parts))) as [c'|] eqn:Hc'.
    + intros [= <-]. by apply Hlast.
    + by apply last_None in Hc'.
Qed.

(** X12. The title never starts or ends with whitespace. *)
Theorem extract_title_trimmed (soup : node) : trimmed (_extract_title soup).
Proof.
  assert (∀ tag t, title_text tag = Some t → trimmed t) as Htext.
  { intros [e|] t; cbn [title_text]; [|done].
    destruct (truthy _); [|done]. intros [= <-]. apply strip_trimmed. }
  unfold _extract_title.
  destruct (title_text (find (by_name [lit "h1"]) soup)) eqn:H1; [by eapply Htext|].
  destruct (title_text (find (by_class TITLE_CLASSES) soup)) eqn:H2; [by eapply Htext|].
  destruct (title_text (find (by_name [lit "title"]) soup)) eqn:H3; [by eapply Htext|].
  split; intros c; vm_compute; by intros [= <-].
Qed.

(** ** The scraper: the body *)

(** The body extraction reads the text off the stripped content element,
    and leaves the document with that element in the place of the content
    element. *)
Lemma extract_content_eq (soup : node) :
  _extract_content soup
  = (body_text (stripped_element soup),
     alter_path (decompose_all (by_name UNWANTED)) soup (content_path soup)).
Proof.
  assert (default (alter_path (decompose_all (by_name UNWANTED)) soup (content_path soup))
            (at_path (alter_path (decompose_all (by_name UNWANTED)) soup
                        (content_path soup)) (content_path soup))
          = stripped_element soup) as Helem.
  { unfold stripped_element, content_element, content_path.
    pose proof (select_content_first_found soup content_selectors) as Hsel.
    destruct (select_content soup content_selectors) as [q|]; cbn [from_option id].
    - destruct Hsel as (e & Hq & _).
      by rewrite (at_path_alter_path _ _ _ _ Hq), Hq.
    - reflexivity. }
  unfold _extract_content, body_text. cbv zeta. rewrite Helem. reflexivity.
Qed.

Lemma lstrip_blank (s : str) :
  lstrip s = [] ↔ Forall (λ c, is_space c = true) s.
Proof.
  induction s as [|a s IH]; cbn [lstrip]; [by split|].
  destruct (is_space a) eqn:Ha.
  - rewrite IH. split; [by constructor | by intros [_ ?]%Forall_cons_1].
  - split; [done|]. intros [Hs _]%Forall_cons_1. congruence.
Qed.

Lemma lstrip_suffix (s : str) : lstrip s `suffix_of` s.
Proof.
  induction s as [|a s IH]; cbn [lstrip]; [done|].
  destruct (is_space a); [by apply suffix_cons_r | done].
Qed.

Lemma strip_blank (s : str) :
  strip s = [] ↔ Forall (λ c, is_space c = true) s.
Proof.
  unfold strip. split.
  - intros Hs.
    assert (lstrip (reverse (lstrip s)) = []) as Hr.
    { rewrite <- (reverse_involutive (lstrip _)). by rewrite Hs. }
    apply lstrip_blank in Hr. apply lstrip_blank.
    destruct (lstrip s) as [|c t] eqn:Ht; [done|].
    assert (is_space c = false) as Hc by (apply (lstrip_head s); by rewrite Ht).
    rewrite Forall_forall in Hr. rewrite (Hr c) in Hc; [done|].
    apply elem_of_reverse. by left.
  - intros Hs%lstrip_blank. by rewrite Hs.
Qed.

Lemma get_text_descendant (n d : node) (c : N) :
  d ∈ descendants n → c ∈ get_text d → c ∈ get_text n.
Proof.
  revert d. induction n as [s|name classes a cs IH] using node_forall_ind;
    intros d; cbn [descendants get_text]; [by intros ?%elem_of_nil|].
  rewrite !list_elem_of_In, !in_flat_map.
  intros (x & Hx & Hd) Hc. exists x. split; [done|].
  rewrite Forall_forall in IH. apply list_elem_of_In.
  destruct Hd as [<-|Hd]; [by apply list_elem_of_In|].
  apply (IH x (proj2 (list_elem_of_In _ _) Hx) d); by apply list_elem_of_In.
Qed.

Lemma body_text_trimmed (element : node) : trimmed (body_text element).
Proof.
  unfold body_text. cbv zeta.
  destruct (truthy (join nl _)); [|apply strip_trimmed].
  apply join_trimmed, List.Forall_map, Forall_forall.
  intros p [_ Hp]%list_elem_of_In%filter_In. split; [|apply strip_trimmed].
  by destruct (strip (get_text p)).
Qed.

Lemma body_text_blank (element : node) :
  body_text element = [] ↔ Forall (λ c, is_space c = true) (get_text element).
Proof.
  unfold body_text. cbv zeta. split.
  - destruct (join nl _) as [|c t]; cbn [truthy]; [|done]. apply strip_blank.
  - intros Hblank.
    assert (∀ paragraphs,
              Forall (λ p, p ∈ descendants element) paragraphs →
              List.filter (λ p, truthy (strip (get_text p))) paragraphs = []) as Hnone.
    { induction 1 as [|p ps Hp _ IHps]; [done|]. cbn [List.filter].
      replace (strip (get_text p)) with (@nil N); [done|].
      symmetry. apply strip_blank, Forall_forall. intros c Hc.
      rewrite Forall_forall in Hblank. apply Hblank.
      by apply (get_text_descendant element p). }
    rewrite Hnone; [cbn [List.map join truthy]; by apply strip_blank|].
    destruct (truthy _); apply Forall_forall; unfold find_all;
      intros p Hp; apply list_elem_of_In, filter_In in Hp as [Hp _];
      by apply list_elem_of_In.
Qed.

(** X13. The body text never starts or ends with whitespace, and it is
    the empty text exactly when the content element, its script, style,
    nav, header and footer tags removed, has no text but whitespace. *)
Theorem extract_content_body (soup : node) :
  trimmed (_extract_content soup).1
  ∧ ((_extract_content soup).1 = []
     ↔ Forall (λ c, is_space c = true) (get_text (stripped_element soup))).
Proof.
  rewrite extract_content_eq. cbn [fst]. split.
  - apply body_text_trimmed.
  - apply body_text_blank.
Qed.

Lemma by_name_decompose_all (names : list str) (p : node → bool) (n : node) :
  by_name names (decompose_all p n) = by_name names n.
Proof. by destruct n. Qed.

Lemma descendants_decompose_all (names : list str) (n : node) :
  Forall (λ d, by_name names d = false)
    (descendants (decompose_all (by_name names) n)).
Proof.
  induction n as [s|name classes a cs IH] using node_forall_ind; [constructor|].
  cbn [decompose_all descendants].
  induction IH as [|c cs Hc _ IHcs]; [constructor|].
  destruct (by_name names c) eqn:Hname; [exact IHcs|].
  cbn [List.flat_map]. apply Forall_app. split; [|exact IHcs].
  constructor; [by rewrite by_name_decompose_all | exact Hc].
Qed.

(** Where the stripped content element sits in the document after the
    body extraction. *)
Lemma extract_content_at_path (soup : node) :
  at_path (_extract_content soup).2 (content_path soup)
  = Some (stripped_element soup).
Proof.
  rewrite extract_content_eq. cbn [snd].
  unfold stripped_element, content_element, content_path.
  pose proof (select_content_first_found soup content_selectors) as Hsel.
  destruct (select_content soup content_selectors) as [q|]; cbn [from_option id].
  - destruct Hsel as (e & Hq & _).
    by rewrite (at_path_alter_path _ _ _ _ Hq), Hq.
  - reflexivity.
Qed.

(** X14. After the body extraction the content element holds no script,
    style, nav, header or footer tag at any depth, and the body text is
    read off that element alone. *)
Theorem extract_content_strips (soup : node) :
  find_all (by_name UNWANTED) (stripped_element soup) = []
  ∧ (_extract_content soup).1 = body_text (stripped_element soup)
  ∧ at_path (_extract_content soup).2 (content_path soup)
    = Some (stripped_element soup).
Proof.
  split_and!.
  - unfold find_all, stripped_element.
    pose proof (descendants_decompose_all UNWANTED (content_element soup)) as Hd.
    induction Hd as [|d ds Hd _ IHd]; [done|]. cbn [List.filter]. by rewrite Hd.
  - by rewrite extract_content_eq.
  - apply extract_content_at_path.
Qed.

(** ** The scraper: the content element after the body extraction *)

Lemma find_path_Tag (p : node → bool) (name : str) (classes : list str)
    (a : gmap string str) (cs : list node) :
  find_path p (Tag name classes a cs) = find_in_children p cs 0.
Proof.
  cbn [find_path]. generalize 0%nat.
  induction cs as [|c cs IH]; intros i; [reflexivity|].
  cbn [find_in_children]. rewrite <- IH. reflexivity.
Qed.

Lemma selector_test_shallow (selector : str) : shallow (selector_test selector).
Proof.
  assert (∀ names, shallow (by_name names)) as Hname by done.
  assert (∀ wanted, shallow (by_class wanted)) as Hclass by done.
  assert (∀ wanted, shallow (by_id wanted)) as Hid by done.
  unfold selector_test. repeat case_match; auto.
Qed.

Section Stripping.

Variable t : node → bool.
Hypothesis t_shallow : shallow t.
Variable unwanted : node → bool.

Local Notation f := (decompose_all unwanted).

Lemma shallow_decompose_all (x : node) : t (f x) = t x.
Proof. destruct x as [s|name classes a cs]; [done|]. apply t_shallow. Qed.

Lemma shallow_alter_path (x : node) (q : path) : t (alter_path f x q) = t x.
Proof.
  destruct q as [|i q]; [apply shallow_decompose_all|].
  destruct x as [s|name classes a cs]; [done|]. apply t_shallow.
Qed.

(** Removing tags brings no match where there was none. *)
Lemma find_path_decompose_None (x : node) :
  find_path t x = None → find_path t (f x) = None.
Proof.
  induction x as [s|name classes a cs IH] using node_forall_ind; [done|].
  cbn [decompose_all]. rewrite !find_path_Tag. generalize 0%nat at 1. generalize 0%nat.
  induction IH as [|c cs Hc _ IHcs]; intros j i; [done|].
  cbn [find_in_children].
  destruct (t c) eqn:Htc; [done|].
  destruct (find_path t c) eqn:Hfc; [done|]. intros Hrest.
  destruct (unwanted c); [by eapply IHcs|].
  cbn [find_in_children]. rewrite shallow_decompose_all, Htc, (Hc eq_refl).
  by eapply IHcs.
Qed.

Lemma find_in_children_alter_None (g : node → node) (cs : list node) (i k : nat) :
  (∀ x, t (g x) = t x) →
  (∀ x, find_path t x = None → find_path t (g x) = None) →
  find_in_children t cs k = None →
  find_in_children t (alter g i cs) k = None.
Proof.
  intros Hg1 Hg2. revert i k.
  induction cs as [|c cs IH]; intros i k; [done|].
  cbn [find_in_children].
  destruct (t c) eqn:Htc; [done|].
  destruct (find_path t c) eqn:Hfc; [done|]. intros Hrest.
  destruct i as [|i]; cbn [alter list_alter find_in_children].
  - by rewrite Hg1, Htc, (Hg2 c Hfc).
  - rewrite Htc, Hfc. by apply IH.
Qed.

Lemma find_path_alter_None (x : node) (q : path) :
  find_path t x = None → find_path t (alter_path f x q) = None.
Proof.
  revert x. induction q as [|i q IH]; intros x; [apply find_path_decompose_None|].
  destruct x as [s|name classes a cs]; [done|].
  cbn [alter_path]. rewrite !find_path_Tag.
  apply find_in_children_alter_None; [intros y; apply shallow_alter_path | apply IH].
Qed.

Lemma find_in_children_alter_Some (g : node → node) (cs : list node)
    (i k : nat) (q : path) :
  (∀ x, t (g x) = t x) →
  (q = [] → ∀ x, t x = true → t (g x) = true) →
  (∀ x, find_path t x = Some q → find_path t (g x) = Some q) →
  find_in_children t cs k = Some (i :: q) →
  (k ≤ i)%nat ∧ find_in_children t (alter g (i - k)%nat cs) k = Some (i :: q).
Proof.
  intros Hg1 Hg2 Hg3. revert k.
  induction cs as [|c cs IH]; intros k; [done|].
  cbn [find_in_children].
  destruct (t c) eqn:Htc.
  - intros [= <- <-]. split; [done|]. rewrite Nat.sub_diag.
    cbn [alter list_alter find_in_children]. by rewrite Hg1, Htc.
  - destruct (find_path t c) as [q0|] eqn:Hfc.
    + intros [= <- <-]. split; [done|]. rewrite Nat.sub_diag.
      cbn [alter list_alter find_in_children]. by rewrite Hg1, Htc, (Hg3 c Hfc).
    + intros Hrest. destruct (IH (S k) Hrest) as [Hle Hfind]. split; [lia|].
      replace (i - k)%nat with (S (i - S k)) by lia.
      cbn [alter list_alter find_in_children]. by rewrite Htc, Hfc.
Qed.

Lemma find_in_children_not_nil (cs : list node) (k : nat) :
  find_in_children t cs k ≠ Some [].
Proof.
  revert k. induction cs as [|c cs IH]; intros k; [done|].
  cbn [find_in_children]. destruct (t c); [done|].
  destruct (find_path t c); [done|]. apply IH.
Qed.

(** Removing tags under the first match leaves it the first match. *)
Lemma find_path_alter_Some (x : node) (q : path) :
  find_path t x = Some q → find_path t (alter_path f x q) = Some q.
Proof.
  revert x. induction q as [|i q IH]; intros x.
  - destruct x as [s|name classes a cs]; [done|]. rewrite find_path_Tag.
    intros Hfind. by apply find_in_children_not_nil in Hfind.
  - destruct x as [s|name classes a cs]; [done|].
    cbn [alter_path]. rewrite !find_path_Tag. intros Hfind.
    apply (find_in_children_alter_Some (λ c, alter_path f c q)) in Hfind
      as [_ Hfind].
    + by rewrite Nat.sub_0_r in Hfind.
    + intros y. apply shallow_alter_path.
    + intros _ y Hy. by rewrite shallow_alter_path.
    + apply IH.
Qed.

End Stripping.

Lemma select_content_alter (soup : node) (selectors : list str) (q : path) :
  select_content soup selectors = Some q →
  select_content (alter_path (decompose_all (by_name UNWANTED)) soup q) selectors
  = Some q.
Proof.
  induction selectors as [|selector rest IH]; cbn [select_content]; [done|].
  destruct (find_path (selector_test selector) soup) as [q0|] eqn:Hfind.
  - intros [= <-].
    by rewrite (find_path_alter_Some _ (selector_test_shallow selector) _ _ _ Hfind).
  - intros Hrest.
    rewrite (find_path_alter_None _ (selector_test_shallow selector) _ _ _ Hfind).
    by apply IH.
Qed.

Lemma select_content_decompose (soup : node) (selectors : list str) :
  select_content soup selectors = None →
  select_content (decompose_all (by_name UNWANTED) soup) selectors = None.
Proof.
  induction selectors as [|selector rest IH]; cbn [select_content]; [done|].
  destruct (find_path (selector_test selector) soup) as [q0|] eqn:Hfind; [done|].
  intros Hrest.
  rewrite (find_path_decompose_None _ (selector_test_shallow selector) _ _ Hfind).
  by apply IH.
Qed.

(** X15. The body extraction does not move the content element: in the
    document it leaves, the selectors find the content element at the
    same place, with its script, style, nav, header and footer tags
    removed.  So a scraped page has the title of the page as fetched,
    and the body and the images of that one stripped element, the images
    of the whole stripped document when the element has none. *)
Theorem scrape_document_parts
    (urljoin : str → str → str) (url : str) (soup : node) :
  let soup' := (_extract_content soup).2 in
  content_path soup' = content_path soup
  ∧ content_element soup' = stripped_element soup
  ∧ scrape_document urljoin url soup
    = {| title := _extract_title soup;
         content := body_text (stripped_element soup);
         images :=
           dedup_first
             (if truthy (collect_images urljoin url (stripped_element soup))
              then collect_images urljoin url (stripped_element soup)
              else collect_images urljoin url soup') |}.
Proof.
  intros soup'.
  assert (content_path soup' = content_path soup) as Hpath.
  { unfold soup'. rewrite extract_content_eq. cbn [snd]. unfold content_path.
    destruct (select_content soup content_selectors) as [q|] eqn:Hsel;
      cbn [from_option id alter_path].
    - by rewrite (select_content_alter _ _ _ Hsel).
    - by rewrite (select_content_decompose _ _ Hsel). }
  assert (content_element soup' = stripped_element soup) as Helem.
  { unfold content_element at 1. rewrite Hpath. unfold soup'.
    rewrite extract_content_at_path. reflexivity. }
  split_and!; [done | done |].
  unfold scrape_document. rewrite extract_content_eq.
  fold soup'. unfold _extract_images. rewrite dict_fromkeys_dedup.
  replace (alter_path (decompose_all (by_name UNWANTED)) soup (content_path soup))
    with soup' by (unfold soup'; by rewrite extract_content_eq).
  by rewrite Helem.
Qed.

(** ** The handlers *)

Section Handlers.

Context {W : Type}.
Variable chat_create : ChatRequest → io W ChatResponse.
Variable responses_create : SearchRequest → io W SearchResponse.
Variable http_get : str → io W str.
Variable parse_html : str → node.
Variable urljoin : str → str → str.
Variable issubclass : string → string → bool.
Variable http_url : str → option str.
Variable validation_error : LineGenerateRequest.t → exn.
Variable http_exception_str : nat → str → str.

Ltac run_handler :=
  unfold App.scrape_blog, App.generate_line_content, App.respond, App.scrape,
    try_except, lift, raise, mbind, io_bind, mret, io_ret in *.

(** What [BlogScraper.scrape] does with the answer of the site. *)
Lemma app_scrape_run (url : str) (w : W) :
  App.scrape http_get parse_html urljoin issubclass url w
  = match http_get url w with
    | (w', Ok text) => (w', Ok (scrape_document urljoin url (parse_html text)))
    | (w', Raised e) =>
        (w', Raised (if issubclass (exn_type e) "RequestException"
                     then {| exn_type := "Exception";
                             exn_str := SCRAPE_FAILED ++ exn_str e |}
                     else e))
    end.
Proof.
  run_handler. destruct (http_get url w) as [w' [text|e]]; [done|].
  by destruct (issubclass (exn_type e) "RequestException").
Qed.

(** The generation raises nothing but its one error, of the class
    [Exception]. *)
Lemma generate_line_content_raises
    (request : LineContentRequest) (scraped_content : ScrapedContent)
    (selected_images : list str) (use_web_search : bool) (w w' : W) (e : exn) :
  generate_line_content chat_create responses_create request scraped_content
    selected_images use_web_search w = (w', Raised e) →
  exn_type e = "Exception"%string
  ∧ ∃ cause, e = generation_error cause.
Proof.
  intros Hrun.
  destruct (search_step_total responses_create request scraped_content
              use_web_search w) as (w1 & web_search_info & Hsearch).
  rewrite (generate_line_content_run _ _ _ _ _ _ _ _ _ Hsearch) in Hrun.
  destruct (generate_variations _ _ _ _ _ _ _) as [w2 [variations|cause]];
    [done|].
  injection Hrun as _ <-. split; [done | by exists cause].
Qed.

(** X16. [scrape_blog] answers a page that is served with its document.
    A failure of the [requests] library is answered 500, its text under
    both prefixes, also when its class is a [ValueError] as well; of the
    other failures the [ValueError]s are answered 422 and the rest 500. *)
Theorem scrape_blog_outcome (url : str) (w : W) :
  issubclass "Exception" "ValueError" = false →
  App.scrape_blog http_get parse_html urljoin issubclass url w
  = match http_get url w with
    | (w', Ok text) =>
        (w', Returned (scrape_document urljoin url (parse_html text)))
    | (w', Raised e) =>
        (w', if issubclass (exn_type e) "RequestException"
             then HTTPError 500 (SCRAPE_BLOG_FAILED ++ SCRAPE_FAILED ++ exn_str e)
             else if issubclass (exn_type e) "ValueError"
                  then HTTPError 422 (INVALID_URL ++ exn_str e)
                  else HTTPError 500 (SCRAPE_BLOG_FAILED ++ exn_str e))
    end.
Proof.
  intros Hclass. unfold App.scrape_blog, App.respond.
  unfold mbind, io_bind, mret, io_ret. rewrite app_scrape_run.
  destruct (http_get url w) as [w' [text|e]]; [done|].
  destruct (issubclass (exn_type e) "RequestException").
  - cbn [exn_type exn_str]. by rewrite Hclass.
  - by destruct (issubclass (exn_type e) "ValueError").
Qed.

(** The handler after the page is read. *)
Lemma handler_after_scrape (request : LineGenerateRequest.t) (w w1 : W) (text : str) :
  http_get (LineGenerateRequest.blog_url request) w = (w1, Ok text) →
  App.generate_line_content chat_create responses_create http_get parse_html
    urljoin issubclass http_url validation_error http_exception_str request w
  = match App.line_content_request http_url validation_error request with
    | Raised v =>
        (w1, if issubclass (exn_type v) "ValueError"
             then HTTPError 422 (exn_str v)
             else HTTPError 500 (LINE_CONTENT_FAILED ++ exn_str v))
    | Ok line_request =>
        let scraped_content :=
          scrape_document urljoin (LineGenerateRequest.blog_url request)
            (parse_html text) in
        match
          generate_line_content chat_create responses_create line_request
            scraped_content (LineGenerateRequest.selected_images request)
            (LineGenerateRequest.use_web_search request) w1
        with
        | (w2, Ok generated_options) =>
            (w2, Returned {| scraped_content := scraped_content;
                             generated_options := generated_options |})
        | (w2, Raised e) =>
            (w2, if issubclass (exn_type e) "ValueError"
                 then HTTPError 422 (exn_str e)
                 else HTTPError 500 (LINE_CONTENT_FAILED ++ exn_str e))
        end
    end.
Proof.
  intros Hget. unfold App.generate_line_content, App.respond.
  unfold try_except at 1. unfold mbind, io_bind. rewrite app_scrape_run, Hget.
  unfold lift.
  destruct (App.line_content_request http_url validation_error request)
    as [line_request|v];
    [|by destruct (issubclass (exn_type v) "ValueError")].
  cbv zeta. unfold mret, io_ret.
  destruct (generate_line_content _ _ _ _ _ _ _) as [w2 [generated_options|e]];
    [done | by destruct (issubclass (exn_type e) "ValueError")].
Qed.

(** The handler when the page cannot be read. *)
Lemma handler_scrape_raised (request : LineGenerateRequest.t) (w w1 : W) (e : exn) :
  http_get (LineGenerateRequest.blog_url request) w = (w1, Raised e) →
  App.generate_line_content chat_create responses_create http_get parse_html
    urljoin issubclass http_url validation_error http_exception_str request w
  = (w1,
     let cause :=
       if issubclass (exn_type e) "RequestException"
       then SCRAPE_FAILED ++ exn_str e else exn_str e in
     let inner := http_exception_str 500 (SCRAPE_FAILED ++ cause) in
     if issubclass "HTTPException" "ValueError"
     then HTTPError 422 inner
     else HTTPError 500 (LINE_CONTENT_FAILED ++ inner)).
Proof.
  intros Hget. unfold App.generate_line_content, App.respond.
  unfold try_except at 1. unfold mbind, io_bind. rewrite app_scrape_run, Hget.
  unfold raise, App.http_exception. cbn [exn_type exn_str]. cbv zeta.
  destruct (issubclass (exn_type e) "RequestException");
    by destruct (issubclass "HTTPException" "ValueError").
Qed.

(** X17. A page that cannot be read is answered 500 by the generation
    handler, whatever the failure.  The detail carries the text of the
    failure three prefixes deep for a failure of the [requests] library
    and two deep otherwise: the error the handler raises at the scrape is
    caught by its own last clause, and wrapped once more there.  Nothing
    after the scrape is run. *)
Theorem handler_scrape_failure (request : LineGenerateRequest.t) (w w1 : W) (e : exn) :
  issubclass "HTTPException" "ValueError" = false →
  http_get (LineGenerateRequest.blog_url request) w = (w1, Raised e) →
  App.generate_line_content chat_create responses_create http_get parse_html
    urljoin issubclass http_url validation_error http_exception_str request w
  = (w1,
     HTTPError 500
       (LINE_CONTENT_FAILED
        ++ http_exception_str 500
             (SCRAPE_FAILED
              ++ (if issubclass (exn_type e) "RequestException"
                  then SCRAPE_FAILED ++ exn_str e else exn_str e)))).
Proof.
  intros Hclass Hget. rewrite (handler_scrape_raised _ _ _ _ Hget).
  cbv zeta. by rewrite Hclass.
Qed.

(** X18. The generation handler answers 422 exactly when the page of the
    article was read and the request then fails the validation of
    [LineContentRequest]: an address that is not an [HttpUrl], or a
    writing style or line break style outside the listed ones.  The
    detail is the text of the validation error, and neither backend has
    been called; a failure of the scrape or of the generation is never
    answered 422. *)
Theorem handler_422 (request : LineGenerateRequest.t) (w : W) :
  issubclass "Exception" "ValueError" = false →
  issubclass "HTTPException" "ValueError" = false →
  issubclass (exn_type (validation_error request)) "ValueError" = true →
  let answer :=
    App.generate_line_content chat_create responses_create http_get parse_html
      urljoin issubclass http_url validation_error http_exception_str request w in
  let invalid :=
    http_url (LineGenerateRequest.company_url request) = None
    ∨ http_url (LineGenerateRequest.blog_url request) = None
    ∨ LineGenerateRequest.writing_style request ∉ WRITING_STYLES
    ∨ LineGenerateRequest.line_break_style request ∉ LINE_BREAK_STYLES in
  (status_of answer.2 = 422%nat
   ↔ (∃ w1 text, http_get (LineGenerateRequest.blog_url request) w = (w1, Ok text))
     ∧ invalid)
  ∧ (status_of answer.2 = 422%nat →
     ∃ text,
       http_get (LineGenerateRequest.blog_url request) w = (answer.1, Ok text)
       ∧ answer.2 = HTTPError 422 (exn_str (validation_error request))).
Proof.
  intros Hexn Hhttp Hval answer invalid.
  assert (Hreq : (∃ line_request,
                    App.line_content_request http_url validation_error request
                    = Ok line_request ∧ ¬ invalid)
                 ∨ (App.line_content_request http_url validation_error request
                    = Raised (validation_error request) ∧ invalid)).
  { unfold App.line_content_request, invalid.
    destruct (http_url (LineGenerateRequest.company_url request)) as [cu|];
      [|right; split; [done | by left]].
    destruct (http_url (LineGenerateRequest.blog_url request)) as [bu|];
      [|right; split; [done | by right; left]].
    destruct (decide (LineGenerateRequest.writing_style request ∈ WRITING_STYLES))
      as [Hw|Hw].
    - destruct (decide (LineGenerateRequest.line_break_style request
                        ∈ LINE_BREAK_STYLES)) as [Hl|Hl].
      + left. rewrite !bool_decide_eq_true_2 by done. cbn [andb].
        eexists. split; [done|]. intros [?|[?|[?|?]]]; done.
      + right. rewrite (bool_decide_eq_false_2 _ Hl), andb_false_r.
        split; [done | by right; right; right].
    - right. rewrite (bool_decide_eq_false_2 _ Hw). cbn [andb].
      split; [done | by right; right; left]. }
  subst answer.
  destruct (http_get (LineGenerateRequest.blog_url request) w) as [w1 [text|e]]
    eqn:Hget.
  - rewrite (handler_after_scrape _ _ _ _ Hget).
    destruct Hreq as [(line_request & -> & Hvalid) | [-> Hinvalid]].
    + cbv zeta.
      destruct (generate_line_content _ _ _ _ _ _ _)
        as [w2 [generated_options|g]] eqn:Hrun; cbn [fst snd status_of].
      * split; [split; [done | by intros [_ ?]] | done].
      * apply generate_line_content_raises in Hrun as [-> _].
        rewrite Hexn. cbn [status_of].
        split; [split; [done | by intros [_ ?]] | done].
    + rewrite Hval. cbn [fst snd status_of].
      split; [split; [intros _; split; [by exists w1, text | done] | done]|].
      intros _. by exists text.
  - rewrite (handler_scrape_raised _ _ _ _ Hget). cbv zeta. rewrite Hhttp.
    cbn [fst snd status_of].
    split; [split; [done | by intros [(? & ? & ?) _]] | done].
Qed.

(** X19. What the generation handler returns is the document of the page
    at the address of the request together with exactly three options
    generated from that document; every option ends with the references
    to the selected images of the request and the link to the validated
    address of the article. *)
Theorem handler_returns (request : LineGenerateRequest.t) (w w' : W)
    (response : LineContentResponse) :
  App.generate_line_content chat_create responses_create http_get parse_html
    urljoin issubclass http_url validation_error http_exception_str request w
  = (w', Returned response) →
  ∃ w1 text blog_url,
    http_get (LineGenerateRequest.blog_url request) w = (w1, Ok text)
    ∧ http_url (LineGenerateRequest.blog_url request) = Some blog_url
    ∧ scraped_content response
      = scrape_document urljoin (LineGenerateRequest.blog_url request)
          (parse_html text)
    ∧ length (generated_options response) = 3%nat
    ∧ Forall
        (λ v, gc_markdown v
              = gc_content v
                ++ image_refs (LineGenerateRequest.selected_images request)
                ++ source_link_opt (Some blog_url))
        (generated_options response).
Proof.
  intros Hrun.
  destruct (http_get (LineGenerateRequest.blog_url request) w) as [w1 [text|e]]
    eqn:Hget.
  - rewrite (handler_after_scrape _ _ _ _ Hget) in Hrun.
    destruct (App.line_content_request http_url validation_error request)
      as [line_request|v] eqn:Hreq;
      [|by destruct (issubclass (exn_type v) "ValueError")].
    cbv zeta in Hrun.
    destruct (generate_line_content _ _ _ _ _ _ _)
      as [w2 [generated_options|g]] eqn:Hgen;
      [|by destruct (issubclass (exn_type g) "ValueError")].
    injection Hrun as _ <-.
    assert (Hurl : http_url (LineGenerateRequest.blog_url request)
                   = Some (blog_url line_request)).
    { unfold App.line_content_request in Hreq.
      destruct (http_url (LineGenerateRequest.company_url request)); [|done].
      destruct (http_url (LineGenerateRequest.blog_url request)); [|done].
      destruct (_ && _); [|done]. by injection Hreq as <-. }
    apply generate_line_content_ok_inv in Hgen as (contents & Hlen & ->).
    exists w1, text, (blog_url line_request).
    cbn [scraped_content generated_options].
    split_and!; [done | done | done | |].
    + by rewrite length_map.
    + apply List.Forall_map, Forall_forall. intros content _.
      apply format_as_markdown_eq.
  - rewrite (handler_scrape_raised _ _ _ _ Hget) in Hrun. cbv zeta in Hrun.
    by destruct (issubclass "HTTPException" "ValueError").
Qed.

End Handlers.

Lemma scrape_blog_outcome_witness :
  App.scrape_blog refused_get sample_parse_html sample_urljoin sample_issubclass
    (lit "https://example.com/post/1") tt
  = (tt, HTTPError 500
           (SCRAPE_BLOG_FAILED ++ SCRAPE_FAILED ++ lit "Connection refused")).
Proof.
  refine (eq_trans
            (scrape_blog_outcome refused_get sample_parse_html sample_urljoin
               sample_issubclass (lit "https://example.com/post/1") tt _) _).
  - vm_compute. reflexivity.
  - vm_compute. reflexivity.
Defined.

Lemma handler_scrape_failure_witness :
  App.generate_line_content steady_chat failing_search refused_get
    sample_parse_html sample_urljoin sample_issubclass sample_http_url
    sample_validation_error sample_http_exception_str sample_generate_request tt
  = (tt, HTTPError 500
           (LINE_CONTENT_FAILED
            ++ lit "500: "
            ++ SCRAPE_FAILED ++ SCRAPE_FAILED ++ lit "Connection refused")).
Proof.
  refine (eq_trans
            (handler_scrape_failure steady_chat failing_search refused_get
               sample_parse_html sample_urljoin sample_issubclass sample_http_url
               sample_validation_error sample_http_exception_str
               sample_generate_request tt tt connection_refused _ _) _).
  - vm_compute. reflexivity.
  - vm_compute. reflexivity.
  - vm_compute. reflexivity.
Defined.

Lemma handler_422_witness :
  (App.generate_line_content steady_chat failing_search page_get
     sample_parse_html sample_urljoin sample_issubclass sample_http_url
     sample_validation_error sample_http_exception_str
     (with_writing_style sample_generate_request (lit "formal")) tt).2
  = HTTPError 422 (lit "1 validation error for LineContentRequest").
Proof.
  destruct (handler_422 steady_chat failing_search page_get sample_parse_html
              sample_urljoin sample_issubclass sample_http_url
              sample_validation_error sample_http_exception_str
              (with_writing_style sample_generate_request (lit "formal")) tt)
    as [Hiff Hdetail].
  - vm_compute. reflexivity.
  - vm_compute. reflexivity.
  - vm_compute. reflexivity.
  - destruct Hdetail as (text & _ & Hanswer); [|exact Hanswer].
    apply Hiff. split.
    + eexists tt, _. reflexivity.
    + right. right. left. apply (bool_decide_unpack _). vm_compute. exact I.
Defined.

Lemma handler_returns_witness :
  ∃ w1 text blog_url,
    page_get (lit "https://example.com/post/1") tt = (w1, Ok text)
    ∧ sample_http_url (lit "https://example.com/post/1") = Some blog_url
    ∧ scrape_document sample_urljoin (lit "https://example.com/post/1") hero_page
      = scrape_document sample_urljoin (lit "https://example.com/post/1")
          (sample_parse_html text)
    ∧ length (List.map (variation_of sample_request [])
                [lit "Sale!"; lit "Sale!"; lit "Sale!"]) = 3%nat
    ∧ Forall
        (λ v, gc_markdown v
              = gc_content v ++ image_refs [] ++ source_link_opt (Some blog_url))
        (List.map (variation_of sample_request [])
           [lit "Sale!"; lit "Sale!"; lit "Sale!"]).
Proof.
  apply (handler_returns steady_chat failing_search page_get sample_parse_html
           sample_urljoin sample_issubclass sample_http_url
           sample_validation_error sample_http_exception_str
           sample_generate_request tt tt
           {| scraped_content :=
                scrape_document sample_urljoin (lit "https://example.com/post/1")
                  hero_page;
              generated_options :=
                List.map (variation_of sample_request [])
                  [lit "Sale!"; lit "Sale!"; lit "Sale!"] |}).
  vm_compute. reflexivity.
Defined.

(** ** The prompt without images *)

Lemma no_images_lines :
  ((((lines [""; "        - 画像: "] ++ image_field [])
     ++ lines [""; "        "; "        "]) ++ image_instruction [])
   ++ lines [""; "        "; "        "])
  = ((nl ++ lit "        ") ++ lit "- 画像: なし")
    ++ lines [""; "        "; "        "; "        "; "        "].
Proof. vm_compute. reflexivity. Qed.

Lemma no_images_middle (rest : str) :
  lines [""; "        - 画像: "] ++ image_field [] ++ lines [""; "        "; "        "]
  ++ image_instruction [] ++ lines [""; "        "; "        "] ++ rest
  = (nl ++ lit "        ") ++ lit "- 画像: なし"
    ++ lines [""; "        "; "        "; "        "; "        "] ++ rest.
Proof. rewrite !app_assoc, no_images_lines. reflexivity. Qed.

Lemma image_instruction_has_mai (selected_images : list str) :
  selected_images ≠ [] → MAI ∈ image_instruction selected_images.
Proof.
  intros Hne. unfold image_instruction.
  destruct selected_images as [|u l]; [done|]. cbn [truthy].
  case_bool_decide.
  - apply has_char_true. vm_compute. reflexivity.
  - rewrite !elem_of_app. right. right. apply has_char_true. vm_compute. reflexivity.
Qed.

(** *** Occurrences and boundaries *)

Lemma contains_nil (x : str) : x ≠ [] → contains x [] = false.
Proof. by destruct x. Qed.

Lemma contains_app_l (x a b : str) :
  contains x a = true → contains x (a ++ b) = true.
Proof.
  rewrite !contains_infix. intros (u & v & ->). exists u, (v ++ b).
  by rewrite <- !app_assoc.
Qed.

Lemma contains_app_r (x a b : str) :
  contains x b = true → contains x (a ++ b) = true.
Proof.
  rewrite !contains_infix. intros (u & v & ->). exists (a ++ u), v.
  by rewrite <- !app_assoc.
Qed.

(** An occurrence does not run over a character that the text lacks. *)
Lemma contains_split (x a b : str) (c : N) :
  c ∉ x → contains x (a ++ c :: b) = true →
  contains x a = true ∨ contains x b = true.
Proof.
  intros Hc. rewrite !contains_infix. intros (u & v & Huv).
  apply app_eq_app in Huv as [k [[-> Hk] | [-> Hk]]].
  - apply app_eq_app in Hk as [k' [[-> Hk] | [-> Hk]]].
    + destruct k' as [|d k'].
      * left. exists u, []. by rewrite !app_nil_r.
      * injection Hk as <- _. destruct Hc. rewrite elem_of_app. right.
        apply elem_of_cons. by left.
    + left. exists u, k'. by rewrite <- ?app_assoc.
  - destruct k as [|d k].
    + destruct x as [|d x].
      * left. exists a, []. by rewrite !app_nil_r.
      * injection Hk as <- _. destruct Hc. apply elem_of_cons. by left.
    + injection Hk as _ ->. right. by exists k, v.
Qed.

Lemma guards_spec (l : str) :
  guards l = true →
  (∃ c l', l = c :: l' ∧ is_boundary c = true)
  ∧ (∃ l' c, l = l' ++ [c] ∧ is_boundary c = true)
  ∧ MAI ∉ l.
Proof.
  unfold guards. rewrite !andb_true_iff, negb_true_iff.
  intros [[Hhead Hlast] Hmai]. split_and!.
  - destruct l as [|c l']; [done|]. by exists c, l'.
  - destruct (last l) as [c|] eqn:Hl; [|done].
    apply last_Some in Hl as [l' ->]. by exists l', c.
  - by apply has_char_false.
Qed.

Section Occurrences.

(** A text with the counter word and without a boundary character. *)
Variable x : str.
Hypothesis x_mai : MAI ∈ x.
Hypothesis x_inner : ∀ c, c ∈ x → is_boundary c = false.

Lemma boundary_not_elem_of (c : N) : is_boundary c = true → c ∉ x.
Proof. intros Hc Hx. apply x_inner in Hx. congruence. Qed.

Lemma guards_not_contains (l : str) : guards l = true → contains x l = false.
Proof.
  intros (_ & _ & Hmai)%guards_spec. by apply (not_contains _ _ MAI).
Qed.

(** An occurrence in an f-string whose literals guard lies inside one of
    the printed expressions. *)
Lemma contains_between (pieces : list str) :
  (Forall (λ l, guards l = true) (evens pieces) →
   contains x (concat pieces) = true →
   Exists (λ e, contains x e = true) (odds pieces))
  ∧ ∀ l,
      Forall (λ l, guards l = true) (evens (l :: pieces)) →
      contains x (concat (l :: pieces)) = true →
      Exists (λ e, contains x e = true) (odds (l :: pieces)).
Proof.
  induction pieces as [|e rest [IH IH2]].
  - split.
    + intros _ Hc. cbn [concat] in Hc. rewrite contains_nil in Hc; [done|].
      intros ->. by apply elem_of_nil in x_mai.
    + intros l Hg Hc. cbn [evens concat] in *. rewrite app_nil_r in Hc.
      apply Forall_cons_1 in Hg as [Hl _].
      by rewrite (guards_not_contains l Hl) in Hc.
  - split.
    + exact (IH2 e).
    + intros l Hg Hc. cbn [evens odds concat] in *.
      apply Forall_cons_1 in Hg as [Hl Hrest].
      pose proof (guards_not_contains l Hl) as Hnot.
      apply guards_spec in Hl as (_ & (l' & d & -> & Hd) & _).
      rewrite <- app_assoc in Hc. cbn [app] in Hc.
      apply contains_split in Hc as [Hc | Hc];
        [| |by apply boundary_not_elem_of].
      { apply (contains_app_l _ _ [d]) in Hc. congruence. }
      destruct rest as [|l2 rest2].
      * cbn [concat] in Hc. rewrite app_nil_r in Hc. by apply Exists_cons_hd.
      * pose proof Hrest as Hrest'.
        assert (guards l2 = true) as Hl2.
        { destruct rest2; cbn [evens] in Hrest;
            by apply Forall_cons_1 in Hrest as [? _]. }
        apply guards_spec in Hl2 as ((c & l2' & -> & Hc2) & _ & _).
        cbn [concat app] in Hc.
        apply contains_split in Hc as [Hc | Hc];
          [by apply Exists_cons_hd | |by apply boundary_not_elem_of].
        apply Exists_cons_tl. apply IH; [exact Hrest'|].
        cbn [concat app]. apply (contains_app_r _ [c]) in Hc. exact Hc.
Qed.

(** The same for the two sections that stand between literals of their
    own. *)
Lemma contains_section (before t after : str) :
  guards before = true → guards after = true →
  contains x (before ++ t ++ after) = true → contains x t = true.
Proof.
  intros Hb Ha Hc.
  destruct (contains_between [before; t; after]) as [Hbetween _].
  cbn [evens odds concat] in Hbetween. rewrite app_nil_r in Hbetween.
  apply Hbetween in Hc.
  - by apply Exists_cons in Hc as [Hc | Hc%Exists_nil].
  - by repeat constructor.
Qed.

Lemma contains_web_search_section (web_search_info : option WebSearchInfo) :
  contains x (web_search_section web_search_info) = true →
  contains x
    (default [] (d ← web_search_info; sr ← ws_search_results d; sr_summary sr))
  = true.
Proof.
  assert (contains x [] = false) as Hnil
    by (apply contains_nil; intros ->; by apply elem_of_nil in x_mai).
  unfold web_search_section.
  destruct web_search_info as [d|]; [|by rewrite Hnil].
  destruct (dict_truthy d); [|by rewrite Hnil].
  cbn [mbind option_bind].
  destruct (ws_search_results d) as [sr|]; [|by rewrite Hnil].
  cbn [mbind option_bind].
  destruct (sr_summary sr) as [summary|]; [|by rewrite Hnil].
  cbn [default from_option id].
  apply contains_section; vm_compute; reflexivity.
Qed.

Lemma contains_template_instruction (request : LineContentRequest) :
  contains x (template_instruction request) = true →
  contains x (default [] (reference_template request)) = true.
Proof.
  unfold template_instruction.
  destruct (truthy_opt (reference_template request)).
  - apply contains_section; vm_compute; reflexivity.
  - rewrite contains_nil; [done|]. intros ->. by apply elem_of_nil in x_mai.
Qed.

(** An occurrence in a printed text is an occurrence in the prompt. *)
Lemma contains_embedded
    (request : LineContentRequest) (scraped_content : ScrapedContent)
    (selected_images : list str) (web_search_info : option WebSearchInfo) :
  Exists (λ t, contains x t = true)
    (embedded_texts request scraped_content web_search_info) →
  contains x (_build_prompt request scraped_content selected_images web_search_info)
  = true.
Proof.
  assert (contains x [] = false) as Hnil
    by (apply contains_nil; intros ->; by apply elem_of_nil in x_mai).
  assert (∀ i p, prompt_pieces request scraped_content selected_images
                   web_search_info !! i = Some p →
                 contains x p = true →
                 contains x (_build_prompt request scraped_content selected_images
                               web_search_info) = true) as Hpiece.
  { intros i p Hi Hp. apply (contains_trans _ p); [done|].
    by apply (contains_piece _ i). }
  unfold embedded_texts. rewrite !Exists_cons, Exists_nil.
  intros [H|[H|[H|[H|[H|[H|[H|[H|[H|[H|[H|[H|[H|[H|[H|[H|[H|[H|[]]]]]]]]]]]]]]]]]]].
  - by apply (Hpiece 1%nat _ eq_refl).
  - by apply (Hpiece 3%nat _ eq_refl).
  - by apply (Hpiece 5%nat _ eq_refl).
  - by apply (Hpiece 7%nat _ eq_refl).
  - by apply (Hpiece 11%nat _ eq_refl).
  - by apply (Hpiece 13%nat _ eq_refl).
  - by apply (Hpiece 15%nat _ eq_refl).
  - by apply (Hpiece 17%nat _ eq_refl).
  - by apply (Hpiece 19%nat _ eq_refl).
  - by apply (Hpiece 21%nat _ eq_refl).
  - by apply (Hpiece 25%nat _ eq_refl).
  - by apply (Hpiece 27%nat _ eq_refl).
  - by apply (Hpiece 29%nat _ eq_refl).
  - by apply (Hpiece 31%nat _ eq_refl).
  - by apply (Hpiece 33%nat _ eq_refl).
  - by apply (Hpiece 35%nat _ eq_refl).
  - apply (Hpiece 41%nat _ eq_refl). unfold template_instruction.
    destruct (reference_template request) as [[|c t]|];
      cbn [default from_option id] in H; [congruence | | congruence].
    cbn [truthy_opt truthy default from_option id].
    by apply contains_app_r, contains_app_l.
  - apply (Hpiece 9%nat _ eq_refl). unfold web_search_section.
    destruct web_search_info as [[topic [sr|]]|];
      cbn [mbind option_bind ws_search_results default from_option id] in H;
      [|congruence|congruence].
    replace (dict_truthy _) with true
      by (unfold dict_truthy; cbn [ws_topic ws_search_results];
          by rewrite (bool_decide_eq_true_2 (is_Some (Some sr))), orb_true_r).
    cbn [ws_search_results].
    destruct (sr_summary sr) as [summary|];
      cbn [default from_option id] in H; [|congruence].
    by apply contains_app_r, contains_app_l.
Qed.

(** An occurrence in the prompt without images is an occurrence in a
    printed text. *)
Lemma contains_no_images_prompt
    (request : LineContentRequest) (scraped_content : ScrapedContent)
    (web_search_info : option WebSearchInfo) :
  contains x (_build_prompt request scraped_content [] web_search_info) = true →
  Exists (λ t, contains x t = true)
    (embedded_texts request scraped_content web_search_info).
Proof.
  intros Hc.
  destruct (contains_between
              (prompt_pieces request scraped_content [] web_search_info))
    as [Hbetween _].
  apply Hbetween in Hc.
  - unfold prompt_pieces in Hc. cbn [odds] in Hc.
    unfold embedded_texts. rewrite !Exists_cons, Exists_nil in Hc.
    rewrite !Exists_cons, Exists_nil.
    destruct Hc
      as [H|[H|[H|[H|[H|[H|[H|[H|[H|[H|[H|[H|[H|[H|[H|[H|[H|[H|[H|[H|[H|[]]]]]]]]]]]]]]]]]]]]]];
      try tauto.
    + apply contains_web_search_section in H. tauto.
    + assert (MAI ∉ (if add_emotional_intro request then lit "必要" else lit "不要"))
        as Hflag
        by (destruct (add_emotional_intro request);
            apply has_char_false; vm_compute; reflexivity).
      by rewrite (not_contains _ _ MAI x_mai Hflag) in H.
    + assert (MAI ∉ image_field []) as Hfield
        by (apply has_char_false; vm_compute; reflexivity).
      by rewrite (not_contains _ _ MAI x_mai Hfield) in H.
    + change (image_instruction []) with (@nil N) in H.
      rewrite contains_nil in H; [done|]. intros ->. by apply elem_of_nil in x_mai.
    + apply contains_template_instruction in H. tauto.
  - unfold prompt_pieces. cbn [evens].
    repeat apply Forall_cons_2; try apply Forall_nil_2; vm_compute; reflexivity.
Qed.

End Occurrences.

Lemma BOUNDARY_codes : BOUNDARY = [10; 32; 65288; 20491].
Proof. vm_compute. reflexivity. Qed.

Lemma uint_codes_digits (d : Decimal.uint) (c : N) :
  c ∈ uint_codes d → 48 ≤ c ≤ 57.
Proof.
  induction d; cbn [uint_codes]; rewrite ?elem_of_cons;
    try (intros [-> | Hc]; [lia | auto]).
  by intros ?%elem_of_nil.
Qed.

Lemma literal_inner (s : str) (c : N) :
  forallb (λ c, negb (is_boundary c)) s = true → c ∈ s → is_boundary c = false.
Proof.
  rewrite forallb_forall. intros Hs Hc%list_elem_of_In.
  apply Hs in Hc. by apply negb_true_iff in Hc.
Qed.

(** Neither form of the image instruction has a boundary character. *)
Lemma image_instruction_inner (selected_images : list str) (c : N) :
  c ∈ image_instruction selected_images → is_boundary c = false.
Proof.
  unfold image_instruction. destruct (truthy selected_images);
    [|by intros ?%elem_of_nil].
  case_bool_decide.
  - apply literal_inner. vm_compute. reflexivity.
  - rewrite !elem_of_app. intros [Hc | [Hc | Hc]].
    + revert Hc. apply literal_inner. vm_compute. reflexivity.
    + apply uint_codes_digits in Hc. unfold is_boundary, has_char.
      rewrite BOUNDARY_codes. cbn [existsb].
      rewrite !orb_false_iff, !N.eqb_neq. lia.
    + revert Hc. apply literal_inner. vm_compute. reflexivity.
Qed.

(** C10. With no selected image the builder prints nothing in the place
    of the image instruction: the image line of the requirements reads
    that there is none, and only blank lines stand between it and the
    template instruction.  The builder prints the texts it is given as
    they are, so an instruction can still be read in the prompt: either
    form of it occurs there exactly when it occurs in one of the printed
    texts, that is a parameter of the request, the title, the first 1500
    characters of the body, the summary of the search or the reference
    template. *)
Theorem no_images_no_image_instruction
    (request : LineContentRequest) (scraped_content : ScrapedContent)
    (web_search_info : option WebSearchInfo) :
  image_instruction [] = []
  ∧ image_field [] = lit "なし"
  ∧ (∃ before after : str,
       _build_prompt request scraped_content [] web_search_info
       = before ++ lit "- 画像: なし"
         ++ lines [""; "        "; "        "; "        "; "        "]
         ++ template_instruction request ++ after)
  ∧ (∀ images : list str, images ≠ [] →
       contains (image_instruction images)
         (_build_prompt request scraped_content [] web_search_info) = true
       ↔ Exists (λ t, contains (image_instruction images) t = true)
           (embedded_texts request scraped_content web_search_info)).
Proof.
  split_and!; [done | done | |].
  - exists (concat (take 36 (prompt_pieces request scraped_content [] web_search_info))
            ++ nl ++ lit "        "),
           (concat (drop 42 (prompt_pieces request scraped_content [] web_search_info))).
    unfold _build_prompt. rewrite (concat_split_at 36), <- !app_assoc.
    apply app_inv_head_iff.
    rewrite (concat_drop_lookup _ 36 (lines [""; "        - 画像: "])) by done.
    rewrite (concat_drop_lookup _ 37 (image_field [])) by done.
    rewrite (concat_drop_lookup _ 38 (lines [""; "        "; "        "])) by done.
    rewrite (concat_drop_lookup _ 39 (image_instruction [])) by done.
    rewrite (concat_drop_lookup _ 40 (lines [""; "        "; "        "])) by done.
    rewrite (concat_drop_lookup _ 41 (template_instruction request)) by done.
    rewrite no_images_middle, <- !app_assoc. reflexivity.
  - intros images Himages. split.
    + apply contains_no_images_prompt.
      * by apply image_instruction_has_mai.
      * apply image_instruction_inner.
    + intros Htexts.
      apply contains_embedded;
        [by apply image_instruction_has_mai | apply image_instruction_inner
        | exact Htexts].
Qed.

Lemma no_images_no_image_instruction_witness :
  contains (image_instruction [lit "https://example.com/img/a.jpg"])
    (_build_prompt sample_request sample_article [] None) = false.
Proof.
  destruct (no_images_no_image_instruction sample_request sample_article None)
    as (_ & _ & _ & Hiff).
  destruct (contains _ (_build_prompt _ _ _ _)) eqn:Hc; [|reflexivity].
  apply (Hiff [lit "https://example.com/img/a.jpg"]) in Hc; [|discriminate].
  apply Exists_exists in Hc as (t & Ht & Hc). unfold embedded_texts in Ht.
  repeat (apply elem_of_cons in Ht as [-> | Ht]);
    try (vm_compute in Hc; discriminate Hc).
  by apply elem_of_nil in Ht.
Defined.

(** The article whose body is the instruction for one image: the prompt
    built for it without any image contains that instruction. *)
Lemma article_brings_image_instruction :
  contains (image_instruction [lit "https://example.com/img/a.jpg"])
    (_build_prompt sample_request
       (with_content sample_article
          (image_instruction [lit "https://example.com/img/a.jpg"]))
       [] None)
  = true.
Proof. vm_compute. reflexivity. Qed.
